(** * airflow/api_connexion/endpoints/config_endpoint.py

    A shallow embedding of the configuration endpoint of the Airflow REST
    API (handlers [get_config] and [get_value], with the renderers they
    share), and the properties of its specification proved or refuted
    on that embedding.

    Conventions.
    - A Python [str] is a [string], its characters being code points
      below 256 (Latin-1); [str.lower] acts on them as Python does: on the
      letters A-Z and on the capital letters of Latin-1.  Strings with a
      code point above 255 are outside the development.
    - A Python [dict] is an association list in insertion order
      (module [PyDict]): the order of [items()] is what the text and JSON
      renderings show.
    - The process-wide [conf] object, the flask [request] and the
      [Response] are records; a handler is a computation that reads the
      store, logs every access to it and ends in a response or in a raised
      exception. *)

From Stdlib Require Import String Ascii.
From stdpp Require Import base list strings gmap.

(** ** Strings *)

(** [LINE_SEP = "\n"] (line 30). *)
Definition LINE_SEP : string := String (ascii_of_nat 10) EmptyString.

(** [c.lower()] for one character below 256.  The capital letters there
    are A-Z (65-90) and, in Latin-1, 192-214 and 216-222; each has its
    small letter 32 places further.  The multiplication sign (215), the
    sharp s (223) and every other character are left as they are. *)
Definition lower_char (c : ascii) : ascii :=
  let n := nat_of_ascii c in
  if (65 <=? n)%nat && (n <=? 90)%nat
     || (192 <=? n)%nat && (n <=? 214)%nat
     || (216 <=? n)%nat && (n <=? 222)%nat
  then ascii_of_nat (n + 32) else c.

(** [s.lower()]. *)
Fixpoint lower (s : string) : string :=
  match s with
  | EmptyString => EmptyString
  | String c s' => String (lower_char c) (lower s')
  end.

(** [sep.join(parts)]. *)
Definition join (sep : string) (parts : list string) : string :=
  String.concat sep parts.

(** Truth value of a string: [bool(s)] is false for the empty string only. *)
Definition truthy (s : string) : bool :=
  match s with
  | EmptyString => false
  | String _ _ => true
  end.

(** ** Python dictionaries, in insertion order *)

Module PyDict.
Section Dict.
Context {V : Type}.

Definition t := list (string * V).

(** [d[k]]; [None] stands for [KeyError]. *)
Fixpoint get (d : t) (k : string) : option V :=
  match d with
  | [] => None
  | (k', v) :: d' => if String.eqb k k' then Some v else get d' k
  end.

(** [k in d]. *)
Definition contains (d : t) (k : string) : bool :=
  match get d k with Some _ => true | None => false end.

(** [d.clear()]. *)
Definition clear (d : t) : t := [].

(** [d[k] = v]: an existing key keeps its place, a new key goes last. *)
Fixpoint set (d : t) (k : string) (v : V) : t :=
  match d with
  | [] => [(k, v)]
  | (k', v') :: d' =>
      if String.eqb k k' then (k', v) :: d' else (k', v') :: set d' k v
  end.

(** [d.items()] and [d.keys()]. *)
Definition items (d : t) : list (string * V) := d.
Definition keys (d : t) : list string := d.*1.
End Dict.
Arguments t : clear implicits.
End PyDict.

(** ** Data model *)

(** Modelled from the spec: the named tuples [Config], [ConfigSection] and
    [ConfigOption] of schemas/config_schema.py, which is not part of the
    sources at hand.  A snapshot is an ordered sequence of sections; a
    section has a name and an ordered sequence of options; an option has
    a key and a value, both strings.  These are the fields that lines
    35-61 construct and read. *)

Record ConfigOption := { key : string; value : string }.
Record ConfigSection := { name : string; options : list ConfigOption }.
Record Config := { sections : list ConfigSection }.

(** ** Renderers *)

(** Lines 33-43. *)
Definition _conf_dict_to_config
    (conf_dict : PyDict.t (PyDict.t string)) : Config :=
  {| sections :=
       map (fun '(section, options) =>
              {| name := section;
                 options := map (fun '(key, value) => {| key := key; value := value |})
                                (PyDict.items options) |})
           (PyDict.items conf_dict) |}.

(** Lines 46-48. *)
Definition _option_to_text (config_option : ConfigOption) : string :=
  key config_option +:+ " = " +:+ value config_option.

(** Lines 51-56. *)
Definition _section_to_text (config_section : ConfigSection) : string :=
  ("[" +:+ name config_section +:+ "]" +:+ LINE_SEP)
  +:+ (join LINE_SEP (map _option_to_text (options config_section)) +:+ LINE_SEP).

(** Lines 59-61. *)
Definition _config_to_text (config : Config) : string :=
  join LINE_SEP (map _section_to_text (sections config)).

(** ** JSON

    [_config_to_json] (lines 64-66) is [json.dumps(config_schema.dump(config),
    indent=4)].  [JSON] is the Python data that [json.dumps] is given
    here and that [json.loads] gives back: [None], [bool], [str], [list]
    and [dict] (numbers do not occur in a rendered configuration and are
    left out: [json.loads] rejects them). *)

#[warnings="-register-all"]
Inductive JSON :=
| JNull
| JBool (b : bool)
| JString (s : string)
| JArray (items : list JSON)
| JObject (members : list (string * JSON)).

(** Induction on a [JSON] value with the hypothesis for every item of an
    array and every value of an object. *)
Section JSON_nested_ind.
Context (P : JSON → Prop).
Context (Hnull : P JNull) (Hbool : ∀ b, P (JBool b)) (Hstr : ∀ s, P (JString s)).
Context (Harr : ∀ items, Forall P items → P (JArray items)).
Context (Hobj : ∀ members, Forall (λ kv, P kv.2) members → P (JObject members)).

Fixpoint JSON_nested_ind (o : JSON) : P o :=
  match o with
  | JNull => Hnull
  | JBool b => Hbool b
  | JString s => Hstr s
  | JArray items =>
      Harr items
        ((fix all (l : list JSON) : Forall P l :=
            match l with
            | [] => List.Forall_nil P
            | x :: l' => List.Forall_cons P x l' (JSON_nested_ind x) (all l')
            end) items)
  | JObject members =>
      Hobj members
        ((fix all (l : list (string * JSON)) : Forall (λ kv, P kv.2) l :=
            match l with
            | [] => List.Forall_nil _
            | kv :: l' => List.Forall_cons _ kv l' (JSON_nested_ind kv.2) (all l')
            end) members)
  end.
End JSON_nested_ind.

(** The number of values in a value, each item and member counted once
    more: the nesting that the decoder goes through. *)
Fixpoint size (o : JSON) : nat :=
  match o with
  | JArray items => S (list_sum (map (λ x, S (size x)) items))
  | JObject members => S (list_sum (map (λ kv, S (size (snd kv))) members))
  | _ => 1
  end.

(** Modelled from the spec: the marshmallow schema [config_schema] of
    schemas/config_schema.py, which is not part of the sources at hand.
    The top-level object has a [sections] array; each section has [name]
    and an [options] array; each option has [key] and [value], in this
    field order. *)
Module config_schema.
Definition dump_option (o : ConfigOption) : JSON :=
  JObject [("key", JString (key o)); ("value", JString (value o))].

Definition dump_section (s : ConfigSection) : JSON :=
  JObject [("name", JString (name s));
           ("options", JArray (map dump_option (options s)))].

Definition dump (config : Config) : JSON :=
  JObject [("sections", JArray (map dump_section (sections config)))].
End config_schema.

(** The encoder and decoder of Python's [json] module, on [JSON]. *)
Module json.

Definition hexdigit (n : nat) : ascii :=
  if (n <? 10)%nat then ascii_of_nat (48 + n) else ascii_of_nat (87 + n).

(** One character of [py_encode_basestring_ascii]: the table
    [ESCAPE_DCT], the printable range [' '..'~'] as it is, everything
    else as a four-digit escape. *)
Definition escape_ascii (c : ascii) : string :=
  let n := nat_of_ascii c in
  if (n =? 92)%nat then "\\"
  else if (n =? 34)%nat then String "\" (String (ascii_of_nat 34) EmptyString)
  else if (n =? 8)%nat then "\b"
  else if (n =? 12)%nat then "\f"
  else if (n =? 10)%nat then "\n"
  else if (n =? 13)%nat then "\r"
  else if (n =? 9)%nat then "\t"
  else if (32 <=? n)%nat && (n <=? 126)%nat then String c EmptyString
  else String "\" (String "u" (String "0" (String "0"
         (String (hexdigit (n / 16)) (String (hexdigit (n mod 16)) EmptyString))))).

Definition quote : string := String (ascii_of_nat 34) EmptyString.

Fixpoint escape_string (s : string) : string :=
  match s with
  | EmptyString => EmptyString
  | String c s' => escape_ascii c +:+ escape_string s'
  end.

Definition encode_basestring_ascii (s : string) : string :=
  quote +:+ escape_string s +:+ quote.

Fixpoint spaces (n : nat) : string :=
  match n with
  | O => EmptyString
  | S n' => String " " (spaces n')
  end.

(** [_iterencode] with [item_separator = ","], [key_separator = ": "]
    and an indent of [indent] spaces per level. *)
Fixpoint iterencode (indent : nat) (o : JSON) (level : nat) : string :=
  let newline_indent := LINE_SEP +:+ spaces (indent * S level) in
  let close := LINE_SEP +:+ spaces (indent * level) in
  match o with
  | JNull => "null"
  | JBool true => "true"
  | JBool false => "false"
  | JString s => encode_basestring_ascii s
  | JArray [] => "[]"
  | JArray lst =>
      "[" +:+ newline_indent
      +:+ join ("," +:+ newline_indent)
              (map (fun v => iterencode indent v (S level)) lst)
      +:+ close +:+ "]"
  | JObject [] => "{}"
  | JObject dct =>
      "{" +:+ newline_indent
      +:+ join ("," +:+ newline_indent)
              (map (fun kv => encode_basestring_ascii (fst kv) +:+ ": "
                              +:+ iterencode indent (snd kv) (S level)) dct)
      +:+ close +:+ "}"
  end.

(** [json.dumps(obj, indent=indent)]. *)
Definition dumps (obj : JSON) (indent : nat) : string :=
  iterencode indent obj 0.

(** *** Decoder: [json.loads].  [None] stands for [JSONDecodeError]. *)

(** The whitespace of the decoder: space, tab, newline, carriage return. *)
Definition is_ws (c : ascii) : bool :=
  let n := nat_of_ascii c in
  (n =? 32)%nat || (n =? 9)%nat || (n =? 10)%nat || (n =? 13)%nat.

Fixpoint skip_ws (s : string) : string :=
  match s with
  | String c s' => if is_ws c then skip_ws s' else s
  | EmptyString => s
  end.

Definition hexval (c : ascii) : option nat :=
  let n := nat_of_ascii c in
  if (48 <=? n)%nat && (n <=? 57)%nat then Some (n - 48)
  else if (97 <=? n)%nat && (n <=? 102)%nat then Some (n - 87)
  else if (65 <=? n)%nat && (n <=? 70)%nat then Some (n - 55)
  else None.

(** The one-letter escapes of [BACKSLASH]. *)
Definition unescape (c : ascii) : option ascii :=
  let n := nat_of_ascii c in
  if (n =? 34)%nat then Some c
  else if (n =? 92)%nat then Some c
  else if (n =? 47)%nat then Some c
  else if (n =? 98)%nat then Some (ascii_of_nat 8)
  else if (n =? 102)%nat then Some (ascii_of_nat 12)
  else if (n =? 110)%nat then Some (ascii_of_nat 10)
  else if (n =? 114)%nat then Some (ascii_of_nat 13)
  else if (n =? 116)%nat then Some (ascii_of_nat 9)
  else None.

(** [scanstring], strict: reads up to the closing quote and gives the
    decoded string and the rest of the input.  A four-digit escape of a
    code point above 255 has no image in [string] and is rejected. *)
Fixpoint scanstring (s : string) : option (string * string) :=
  match s with
  | EmptyString => None
  | String c rest =>
      let n := nat_of_ascii c in
      if (n =? 34)%nat then Some (EmptyString, rest)
      else if (n =? 92)%nat then
        match rest with
        | String "u" (String h3 (String h2 (String h1 (String h0 rest')))) =>
            match hexval h3, hexval h2, hexval h1, hexval h0 with
            | Some 0, Some 0, Some d1, Some d0 =>
                match scanstring rest' with
                | Some (str, tail) =>
                    Some (String (ascii_of_nat (16 * d1 + d0)) str, tail)
                | None => None
                end
            | _, _, _, _ => None
            end
        | String e rest' =>
            match unescape e, scanstring rest' with
            | Some c', Some (str, tail) => Some (String c' str, tail)
            | _, _ => None
            end
        | EmptyString => None
        end
      else if (n <? 32)%nat then None
      else
        match scanstring rest with
        | Some (str, tail) => Some (String c str, tail)
        | None => None
        end
  end.

(** [s.startswith(prefix)], giving what follows the prefix. *)
Fixpoint strip_prefix (prefix s : string) : option string :=
  match prefix, s with
  | EmptyString, _ => Some s
  | String a p', String b s' =>
      if Ascii.eqb a b then strip_prefix p' s' else None
  | String _ _, EmptyString => None
  end.

(** [scan_once], [JSONArray] and [JSONObject]; [fuel] bounds the number
    of nested calls, and the length of the input is always enough. *)
Fixpoint scan_once (fuel : nat) (s : string) : option (JSON * string) :=
  match fuel with
  | O => None
  | S fuel' =>
      match s with
      | String c rest =>
          let n := nat_of_ascii c in
          if (n =? 34)%nat then
            match scanstring rest with
            | Some (str, tail) => Some (JString str, tail)
            | None => None
            end
          else if (n =? 123)%nat then
            match skip_ws rest with
            | String "}" tail => Some (JObject [], tail)
            | String q tail =>
                if (nat_of_ascii q =? 34)%nat then
                  match JSONObject fuel' tail with
                  | Some (pairs, tail') => Some (JObject pairs, tail')
                  | None => None
                  end
                else None
            | EmptyString => None
            end
          else if (n =? 91)%nat then
            match skip_ws rest with
            | String nextchar tail =>
                if (nat_of_ascii nextchar =? 93)%nat then Some (JArray [], tail)
                else
                  match JSONArray fuel' (String nextchar tail) with
                  | Some (values, tail') => Some (JArray values, tail')
                  | None => None
                  end
            | EmptyString => None
            end
          else if (n =? 110)%nat then
            match strip_prefix "ull" rest with
            | Some tail => Some (JNull, tail)
            | None => None
            end
          else if (n =? 116)%nat then
            match strip_prefix "rue" rest with
            | Some tail => Some (JBool true, tail)
            | None => None
            end
          else if (n =? 102)%nat then
            match strip_prefix "alse" rest with
            | Some tail => Some (JBool false, tail)
            | None => None
            end
          else None
      | EmptyString => None
      end
  end

(** The loop of [JSONArray]: the input starts at a value. *)
with JSONArray (fuel : nat) (s : string) : option (list JSON * string) :=
  match fuel with
  | O => None
  | S fuel' =>
      match scan_once fuel' s with
      | Some (value, tail) =>
          match skip_ws tail with
          | String "]" tail' => Some ([value], tail')
          | String "," tail' =>
              match JSONArray fuel' (skip_ws tail') with
              | Some (values, tail'') => Some (value :: values, tail'')
              | None => None
              end
          | _ => None
          end
      | None => None
      end
  end

(** The loop of [JSONObject]: the input starts after the opening quote
    of a key.  The pairs are in the order read. *)
with JSONObject (fuel : nat) (s : string)
    : option (list (string * JSON) * string) :=
  match fuel with
  | O => None
  | S fuel' =>
      match scanstring s with
      | Some (k, tail) =>
          match skip_ws tail with
          | String ":" tail' =>
              match scan_once fuel' (skip_ws tail') with
              | Some (value, tail'') =>
                  match skip_ws tail'' with
                  | String "}" rest => Some ([(k, value)], rest)
                  | String "," rest =>
                      match skip_ws rest with
                      | String q rest' =>
                          if (nat_of_ascii q =? 34)%nat then
                            match JSONObject fuel' rest' with
                            | Some (pairs, rest'') =>
                                Some ((k, value) :: pairs, rest'')
                            | None => None
                            end
                          else None
                      | EmptyString => None
                      end
                  | _ => None
                  end
              | None => None
              end
          | _ => None
          end
      | None => None
      end
  end.

(** [dict(pairs)]: a key read twice keeps its first place and its last
    value. *)
Definition dict_of_pairs {V} (pairs : list (string * V)) : list (string * V) :=
  fold_left (fun d kv => PyDict.set d (fst kv) (snd kv)) pairs [].

(** The Python value of what was read: every object becomes a [dict]. *)
Fixpoint object_hook (o : JSON) : JSON :=
  match o with
  | JArray items => JArray (map object_hook items)
  | JObject members =>
      JObject (dict_of_pairs (map (fun kv => (fst kv, object_hook (snd kv))) members))
  | _ => o
  end.

(** [json.loads(s)]: one value between optional whitespace, and nothing
    after it. *)
Definition loads (s : string) : option JSON :=
  match scan_once (S (String.length s)) (skip_ws s) with
  | Some (obj, tail) =>
      match skip_ws tail with
      | EmptyString => Some (object_hook obj)
      | String _ _ => None
      end
  | None => None
  end.

End json.

(** Lines 64-66. *)
Definition _config_to_json (config : Config) : string :=
  json.dumps (config_schema.dump config) 4.

(** ** The collaborators of the handlers *)

(** [airflow.configuration.conf]: the interface the handlers use.  The
    store is read-only for them; its answers are parameters of the
    development. *)
Module configuration.
Record AirflowConfigParser := {
  get : string → string → string;
  getboolean : string → string → bool;
  has_section : string → bool;
  has_option : string → string → bool;
  as_dict : ∀ (display_source display_sensitive : bool), PyDict.t (PyDict.t string);
  sensitive_config_values : gset (string * string)
}.
End configuration.
Abbreviation AirflowConfigParser := configuration.AirflowConfigParser.

(** One access of a handler to the store. *)
Inductive ConfCall :=
| CallGet (section key : string)
| CallGetBoolean (section key : string)
| CallHasSection (section : string)
| CallHasOption (section option : string)
| CallAsDict (display_source display_sensitive : bool)
| ReadSensitiveConfigValues.

(** [flask.request]: of the request only [accept_mimetypes.best_match] is
    used; werkzeug's negotiation is a parameter. *)
Record MIMEAccept := { best_match : list string → option string }.
Record Request := { accept_mimetypes : MIMEAccept }.

(** [flask.Response(response, status, headers)]; [status] defaults to 200. *)
Record Response := {
  response : string;
  status : nat;
  headers : PyDict.t string
}.

Module HTTPStatus.
Definition OK : nat := 200.
Definition FORBIDDEN : nat := 403.
Definition NOT_FOUND : nat := 404.
Definition NOT_ACCEPTABLE : nat := 406.
End HTTPStatus.

(** What a handler can raise: the two API exceptions, and [KeyError] from a
    subscript. *)
Inductive Exception :=
| NotFound (title detail : string)
| PermissionDenied (detail : string)
| KeyError (key : option string).

(** Modelled from the spec: the HTTP status of the API exceptions of
    api_connexion/exceptions.py, which is not part of the sources at hand:
    [NotFound] is answered with 404 and [PermissionDenied] with 403.  An
    exception that is not an API exception has no status of its own. *)
Definition status_code (e : Exception) : option nat :=
  match e with
  | NotFound _ _ => Some HTTPStatus.NOT_FOUND
  | PermissionDenied _ => Some HTTPStatus.FORBIDDEN
  | KeyError _ => None
  end.

(** ** The handler monad: read the store, log the access, maybe raise *)

Definition Handler (A : Type) : Type :=
  AirflowConfigParser → list ConfCall → (Exception + A) * list ConfCall.

#[global] Instance Handler_ret : MRet Handler :=
  λ A (x : A) conf log, (inr x, log).

#[global] Instance Handler_bind : MBind Handler :=
  λ A B (f : A → Handler B) (m : Handler A) conf log,
    match m conf log with
    | (inr x, log') => f x conf log'
    | (inl e, log') => (inl e, log')
    end.

Definition raise {A} (e : Exception) : Handler A :=
  λ conf log, (inl e, log).

(** A call of a method of [conf]: the answer of the store, and one more
    entry in the log. *)
Definition call {A} (c : ConfCall) (answer : AirflowConfigParser → A) : Handler A :=
  λ conf log, (inr (answer conf), log ++ [c]).

(** The handler run on a store, from an empty log. *)
Definition run {A} (h : Handler A) (conf : AirflowConfigParser)
    : (Exception + A) * list ConfCall :=
  h conf [].

Module conf.
Definition get (section key : string) : Handler string :=
  call (CallGet section key) (λ c, configuration.get c section key).
Definition getboolean (section key : string) : Handler bool :=
  call (CallGetBoolean section key) (λ c, configuration.getboolean c section key).
Definition has_section (section : string) : Handler bool :=
  call (CallHasSection section) (λ c, configuration.has_section c section).
Definition has_option (section option : string) : Handler bool :=
  call (CallHasOption section option) (λ c, configuration.has_option c section option).
Definition as_dict (display_source display_sensitive : bool)
    : Handler (PyDict.t (PyDict.t string)) :=
  call (CallAsDict display_source display_sensitive)
       (λ c, configuration.as_dict c display_source display_sensitive).
Definition sensitive_config_values : Handler (gset (string * string)) :=
  call ReadSensitiveConfigValues configuration.sensitive_config_values.
End conf.

(** ** The handlers

    The decorators of the handlers (the access check of
    [security.requires_access_configuration] and the migration mark) act
    before a handler is entered and are not part of the embedding. *)

(** The [serializer] dictionary of both handlers (lines 73-76, 110-113). *)
Definition serializer : PyDict.t (Config → string) :=
  [("text/plain", _config_to_text); ("application/json", _config_to_json)].

(** [return_type in serializer], for a [return_type] that may be [None]. *)
Definition in_serializer (return_type : option string) : bool :=
  match return_type with
  | Some k => PyDict.contains serializer k
  | None => false
  end.

(** [serializer[return_type]]. *)
Definition serializer_getitem (return_type : option string)
    : Handler (string * (Config → string)) :=
  match return_type with
  | Some k =>
      match PyDict.get serializer k with
      | Some f => mret (k, f)
      | None => raise (KeyError return_type)
      end
  | None => raise (KeyError return_type)
  end.

Definition PERMISSION_DENIED_DETAIL : string :=
  "Your Airflow administrator chose not to expose the configuration, most likely for security"
  +:+ " reasons.".

(** Lines 71-104.  [section] is [None] or a string; as a condition it is
    true for a non-empty string only. *)
Definition get_config (request : Request) (section : option string)
    : Handler Response :=
  let return_type :=
    best_match (accept_mimetypes request) (PyDict.keys serializer) in
  flag ← conf.get "webserver" "expose_config";
  '(expose_config, display_sensitive) ←
    (if String.eqb (lower flag) "non-sensitive-only"
     then mret (true, false)
     else b ← conf.getboolean "webserver" "expose_config"; mret (b, true));
  if negb (in_serializer return_type) then
    mret {| response := EmptyString;
            status := HTTPStatus.NOT_ACCEPTABLE;
            headers := [] |}
  else if expose_config : bool then
    _ ← match section with
        | Some s =>
            if truthy s then
              known ← conf.has_section s;
              if negb known
              then raise (NotFound "section not found."
                                   ("section=" +:+ s +:+ " not found."))
              else mret ()
            else mret ()
        | None => mret ()
        end;
    conf_dict ← conf.as_dict false display_sensitive;
    conf_dict ← match section with
                | Some s =>
                    if truthy s then
                      match PyDict.get conf_dict s with
                      | Some conf_section_value =>
                          mret (PyDict.set (PyDict.clear conf_dict) s conf_section_value)
                      | None => raise (KeyError (Some s))
                      end
                    else mret conf_dict
                | None => mret conf_dict
                end;
    let config := _conf_dict_to_config conf_dict in
    '(content_type, render) ← serializer_getitem return_type;
    mret {| response := render config;
            status := HTTPStatus.OK;
            headers := [("Content-Type", content_type)] |}
  else raise (PermissionDenied PERMISSION_DENIED_DETAIL).

(** Lines 109-144. *)
Definition get_value (request : Request) (section option : string)
    : Handler Response :=
  let return_type :=
    best_match (accept_mimetypes request) (PyDict.keys serializer) in
  flag ← conf.get "webserver" "expose_config";
  expose_config ←
    (if String.eqb (lower flag) "non-sensitive-only"
     then mret true
     else conf.getboolean "webserver" "expose_config");
  if negb (in_serializer return_type) then
    mret {| response := EmptyString;
            status := HTTPStatus.NOT_ACCEPTABLE;
            headers := [] |}
  else if expose_config : bool then
    known ← conf.has_option section option;
    if negb known
    then raise (NotFound "Config not found."
                  ("The option [" +:+ section +:+ "/" +:+ option
                   +:+ "] is not found in config."))
    else
      sensitive ← conf.sensitive_config_values;
      value ← (if bool_decide ((lower section, lower option) ∈ sensitive)
               then mret "< hidden >"
               else conf.get section option);
      let config :=
        {| sections := [ {| name := section;
                            options := [ {| key := option; value := value |} ] |} ] |} in
      '(content_type, render) ← serializer_getitem return_type;
      mret {| response := render config;
              status := HTTPStatus.OK;
              headers := [("Content-Type", content_type)] |}
  else raise (PermissionDenied PERMISSION_DENIED_DETAIL).

(** ** A store and requests for the examples *)

Module Fixture.

(** An Accept header that lists media types without parameters: the
    first offered type that the header lists (or any, with [*/*]). *)
Definition accepting (listed : list string) : Request :=
  {| accept_mimetypes :=
       {| best_match offered :=
            List.find (λ m, existsb (λ a, String.eqb a m || String.eqb a "*/*") listed)
                      offered |} |}.

Definition settings (flag : string) : PyDict.t (PyDict.t string) :=
  [("a", [("k1", "v1"); ("k2", "v2")]);
   ("core", [("fernet_key", "s3cr3t"); ("executor", "LocalExecutor")]);
   ("webserver", [("expose_config", flag)])].

Definition sensitive : gset (string * string) := {[ ("core", "fernet_key") ]}.

(** Section and option names are looked up in lower case. *)
Definition lookup (d : PyDict.t (PyDict.t string)) (section key : string)
    : option string :=
  PyDict.get d (lower section) ≫= λ options, PyDict.get options (lower key).

Definition hide (d : PyDict.t (PyDict.t string)) : PyDict.t (PyDict.t string) :=
  map (λ '(section, options),
         (section,
          map (λ '(key, value),
                 (key, if bool_decide ((section, key) ∈ sensitive)
                       then "< hidden >" else value))
              options))
      d.

(** A store over [settings flag]. *)
Definition store (flag : string) : AirflowConfigParser :=
  {| configuration.get section key :=
       default EmptyString (lookup (settings flag) section key);
     configuration.getboolean section key :=
       let val := lower (default EmptyString (lookup (settings flag) section key)) in
       String.eqb val "t" || String.eqb val "true" || String.eqb val "1";
     configuration.has_section section :=
       PyDict.contains (settings flag) (lower section);
     configuration.has_option section key :=
       bool_decide (is_Some (lookup (settings flag) section key));
     configuration.as_dict _ display_sensitive :=
       if display_sensitive then settings flag else hide (settings flag);
     configuration.sensitive_config_values := sensitive |}.

End Fixture.

(** ** Vocabulary of the statements *)

(** The media type negotiated for a request (lines 77 and 114). *)
Definition negotiate (request : Request) : option string :=
  best_match (accept_mimetypes request) ["text/plain"; "application/json"].

(** The exposure flag [webserver.expose_config] as the store answers it:
    as a string, and as a boolean. *)
Definition expose_flag (c : AirflowConfigParser) : string :=
  configuration.get c "webserver" "expose_config".

Definition non_sensitive_only (c : AirflowConfigParser) : bool :=
  String.eqb (lower (expose_flag c)) "non-sensitive-only".

Definition flag_boolean (c : AirflowConfigParser) : bool :=
  configuration.getboolean c "webserver" "expose_config".

(** Exposure is enabled: the flag reads [non-sensitive-only], or it parses
    as true. *)
Definition exposure_enabled (c : AirflowConfigParser) : bool :=
  non_sensitive_only c || flag_boolean c.

(** The answer to a request without an acceptable representation. *)
Definition not_acceptable : Response :=
  {| response := EmptyString; status := 406; headers := [] |}.

(** The answer with a rendered body. *)
Definition ok (content_type body : string) : Response :=
  {| response := body; status := 200; headers := [("Content-Type", content_type)] |}.

(** The reads of the exposure flag that open both handlers. *)
Definition flag_reads (c : AirflowConfigParser) : list ConfCall :=
  CallGet "webserver" "expose_config"
  :: (if non_sensitive_only c then []
      else [CallGetBoolean "webserver" "expose_config"]).

(** A check of the store for the existence of a section or an option. *)
Definition is_existence_check (call : ConfCall) : bool :=
  match call with
  | CallHasSection _ | CallHasOption _ _ => true
  | _ => false
  end.

(** A read of the exposure flag. *)
Definition is_flag_read (call : ConfCall) : bool :=
  match call with
  | CallGet section key | CallGetBoolean section key =>
      String.eqb section "webserver" && String.eqb key "expose_config"
  | _ => false
  end.

(** A run that made no access to the store at all. *)
Definition reads_no_configuration {A} (out : (Exception + A) * list ConfCall) : Prop :=
  out.2 = [].

(** The sections of a snapshot rendered one after the other with nothing
    in between. *)
Definition sections_concatenated (config : Config) : string :=
  foldr String.append EmptyString (map _section_to_text (sections config)).

(** Reading a parsed body back as a snapshot: the [sections] of the
    top-level object in their order; of each section its [name] and its
    [options] in their order; of each option its [key] and [value]. *)
Module read_back.
Definition field (k : string) (o : JSON) : option JSON :=
  match o with
  | JObject members => PyDict.get members k
  | _ => None
  end.

Definition str (o : JSON) : option string :=
  match o with JString s => Some s | _ => None end.

Definition items (o : JSON) : option (list JSON) :=
  match o with JArray l => Some l | _ => None end.

Definition option_ (o : JSON) : option ConfigOption :=
  k ← field "key" o ≫= str;
  v ← field "value" o ≫= str;
  Some {| key := k; value := v |}.

Definition section (o : JSON) : option ConfigSection :=
  n ← field "name" o ≫= str;
  opts ← field "options" o ≫= items;
  opts ← mapM option_ opts;
  Some {| name := n; options := opts |}.

Definition config (o : JSON) : option Config :=
  secs ← field "sections" o ≫= items;
  secs ← mapM section secs;
  Some {| sections := secs |}.
End read_back.

(** A text that starts with the first character of a value: not
    whitespace, and not a closing bracket. *)
Definition starts_value (s : string) : Prop :=
  ∃ c s', s = String c s'
          ∧ json.is_ws c = false ∧ (nat_of_ascii c =? 93)%nat = false.

(** The decoder reads the encoding of [v], whatever follows it and at
    whatever level it stands, given fuel for the nesting of [v]. *)
Definition decodes (v : JSON) : Prop :=
  ∀ indent level fuel rest,
    size v ≤ fuel →
    json.scan_once fuel (json.iterencode indent v level +:+ rest) = Some (v, rest).

(** ** Vocabulary of the further properties *)

(** The HTTP status an outcome is answered with: the status of the
    response, or the status of a raised API exception; [None] for an
    exception that is no API exception. *)
Definition http_status (outcome : Exception + Response) : option nat :=
  match outcome with
  | inr answer => Some (status answer)
  | inl e => status_code e
  end.

(** The accesses to the store that a run of [get_config] with this section
    argument may make: reads of the exposure flag, [has_section] of the
    section asked for, and [as_dict] without sources. *)
Definition get_config_may_call (section_arg : option string) (call : ConfCall) : bool :=
  match call with
  | CallGet _ _ | CallGetBoolean _ _ => is_flag_read call
  | CallHasSection s => bool_decide (section_arg = Some s)
  | CallAsDict display_source _ => negb display_source
  | CallHasOption _ _ | ReadSensitiveConfigValues => false
  end.

(** The accesses that a run of [get_value] for this pair may make: reads
    of the exposure flag, [has_option] and [get] of the pair asked for,
    and the registry of sensitive values. *)
Definition get_value_may_call (section option : string) (call : ConfCall) : bool :=
  match call with
  | CallGet s k =>
      is_flag_read call || (String.eqb s section && String.eqb k option)
  | CallGetBoolean _ _ => is_flag_read call
  | CallHasOption s k => String.eqb s section && String.eqb k option
  | ReadSensitiveConfigValues => true
  | CallHasSection _ | CallAsDict _ _ => false
  end.

(** The snapshot of one section of a mapping. *)
Definition section_snapshot (section : string) (section_options : PyDict.t string)
    : ConfigSection :=
  {| name := section;
     options := map (λ kv, {| key := kv.1; value := kv.2 |}) section_options |}.

(** A character that a JSON body may hold when only ASCII is emitted: a
    printable ASCII character, or the newline of the indentation. *)
Definition is_ascii_output (c : ascii) : bool :=
  let n := nat_of_ascii c in
  (32 <=? n)%nat && (n <=? 126)%nat || (n =? 10)%nat.

Fixpoint string_forallb (p : ascii → bool) (s : string) : bool :=
  match s with
  | EmptyString => true
  | String c s' => p c && string_forallb p s'
  end.

(** Stores for the examples of the further properties. *)
Module Scenario.

(** [store "True"] with another value behind every option but the flag. *)
Definition vault (secret : string) : AirflowConfigParser :=
  {| configuration.get section key :=
       if is_flag_read (CallGet section key)
       then configuration.get (Fixture.store "True") section key
       else secret;
     configuration.getboolean := configuration.getboolean (Fixture.store "True");
     configuration.has_section := configuration.has_section (Fixture.store "True");
     configuration.has_option := configuration.has_option (Fixture.store "True");
     configuration.as_dict := configuration.as_dict (Fixture.store "True");
     configuration.sensitive_config_values :=
       configuration.sensitive_config_values (Fixture.store "True") |}.

(** [store "True"] but reporting every section as existing. *)
Definition overreporting : AirflowConfigParser :=
  {| configuration.get := configuration.get (Fixture.store "True");
     configuration.getboolean := configuration.getboolean (Fixture.store "True");
     configuration.has_section _ := true;
     configuration.has_option := configuration.has_option (Fixture.store "True");
     configuration.as_dict := configuration.as_dict (Fixture.store "True");
     configuration.sensitive_config_values :=
       configuration.sensitive_config_values (Fixture.store "True") |}.

(** A store with exposure plainly enabled that has every option, with
    the value [plain], and the given registry of sensitive values. *)
Definition registering (registry : gset (string * string)) : AirflowConfigParser :=
  {| configuration.get section key :=
       if is_flag_read (CallGet section key) then "True" else "plain";
     configuration.getboolean _ _ := true;
     configuration.has_section _ := true;
     configuration.has_option _ _ := true;
     configuration.as_dict _ _ := [];
     configuration.sensitive_config_values := registry |}.

(** The section names [À] (code point 192) and [à] (224). *)
Definition capital_a_grave : string := String (ascii_of_nat 192) EmptyString.
Definition small_a_grave : string := String (ascii_of_nat 224) EmptyString.

End Scenario.

(** * Properties *)

Import Fixture.

(** ** Strings and joins *)

(** [lower] on the capital letters: A-Z and the Latin-1 capitals go to
    their small letters; the multiplication sign, the sharp s and small
    letters stay. *)
Lemma lower_capitals :
  lower "AZaz09_-" = "azaz09_-"
  ∧ map nat_of_ascii
        (list_ascii_of_string
           (lower (string_of_list_ascii
                     (map ascii_of_nat [192; 214; 215; 216; 222; 223; 224; 255]))))
    = [224; 246; 215; 248; 254; 223; 224; 255].
Proof. split; reflexivity. Qed.

(** Lowercasing twice is lowercasing once. *)
Lemma lower_lower (s : string) : lower (lower s) = lower s.
Proof.
  induction s as [|c s IH]; [done|].
  cbn [lower]. rewrite IH. f_equal.
  destruct c as [[] [] [] [] [] [] [] []]; reflexivity.
Qed.

Lemma append_nil_r (s : string) : s +:+ EmptyString = s.
Proof.
  induction s as [|a s IH]; [done|].
  change (String a (s +:+ EmptyString) = String a s). by rewrite IH.
Qed.

Lemma append_assoc (s1 s2 s3 : string) :
  (s1 +:+ s2) +:+ s3 = s1 +:+ (s2 +:+ s3).
Proof.
  induction s1 as [|a s1 IH]; [done|].
  change (String a ((s1 +:+ s2) +:+ s3) = String a (s1 +:+ (s2 +:+ s3))).
  by rewrite IH.
Qed.

Lemma length_append (s1 s2 : string) :
  String.length (s1 +:+ s2) = String.length s1 + String.length s2.
Proof.
  induction s1 as [|a s1 IH]; [done|].
  change (S (String.length (s1 +:+ s2)) = S (String.length s1 + String.length s2)).
  by rewrite IH.
Qed.

Lemma join_singleton (sep part : string) : join sep [part] = part.
Proof. reflexivity. Qed.

Lemma join_cons_cons (sep first second : string) (others : list string) :
  join sep (first :: second :: others)
  = first +:+ sep +:+ join sep (second :: others).
Proof. reflexivity. Qed.

Lemma join_as_foldr (sep first : string) (others : list string) :
  join sep (first :: others)
  = first +:+ foldr (λ part rest, sep +:+ part +:+ rest) EmptyString others.
Proof.
  revert first. induction others as [|second others IH]; intros first.
  - simpl. by rewrite append_nil_r.
  - by rewrite join_cons_cons, IH.
Qed.

Lemma join_terminated (sep first : string) (others : list string) :
  join sep (first :: others) +:+ sep
  = foldr (λ part rest, part +:+ sep +:+ rest) EmptyString (first :: others).
Proof.
  revert first. induction others as [|second others IH]; intros first.
  - simpl. by rewrite append_nil_r.
  - rewrite join_cons_cons, !append_assoc, IH. reflexivity.
Qed.

Lemma length_join (sep first : string) (others : list string) :
  String.length (join sep (first :: others))
  = String.length (foldr String.append EmptyString (first :: others))
    + length others * String.length sep.
Proof.
  revert first. induction others as [|second others IH]; intros first.
  - simpl. rewrite length_append. simpl. lia.
  - rewrite join_cons_cons, !length_append, IH.
    change (foldr String.append EmptyString (first :: second :: others))
      with (first +:+ foldr String.append EmptyString (second :: others)).
    rewrite length_append. simpl. lia.
Qed.

(** ** Negotiation *)

Lemma in_serializer_cases (return_type : option string) :
  in_serializer return_type = true →
  return_type = Some "text/plain" ∨ return_type = Some "application/json".
Proof.
  destruct return_type as [k|]; [|discriminate].
  unfold in_serializer, PyDict.contains, serializer; simpl.
  destruct (String.eqb_spec k "text/plain") as [->|_]; [by left|].
  destruct (String.eqb_spec k "application/json") as [->|_]; [by right|].
  discriminate.
Qed.

Lemma negotiate_keys (request : Request) :
  best_match (accept_mimetypes request) (PyDict.keys serializer) = negotiate request.
Proof. reflexivity. Qed.

#[local] Arguments in_serializer : simpl never.
#[local] Arguments serializer_getitem : simpl never.
#[local] Arguments PyDict.get : simpl never.

(** Unfolds a run of a handler down to the answers of the store. *)
Ltac step_handler :=
  unfold run, get_config, get_value,
    conf.get, conf.getboolean, conf.has_section, conf.has_option,
    conf.as_dict, conf.sensitive_config_values, call, raise,
    mbind, mret, Handler_bind, Handler_ret;
  rewrite ?negotiate_keys;
  unfold flag_reads, exposure_enabled, non_sensitive_only, flag_boolean,
    expose_flag in *;
  simpl.

Lemma in_serializer_Some (content_type : string) (render : Config → string) :
  PyDict.get serializer content_type = Some render →
  in_serializer (Some content_type) = true.
Proof. unfold in_serializer, PyDict.contains. by intros ->. Qed.

Lemma serializer_getitem_Some (content_type : string) (render : Config → string)
    (c : AirflowConfigParser) (log : list ConfCall) :
  PyDict.get serializer content_type = Some render →
  serializer_getitem (Some content_type) c log = (inr (content_type, render), log).
Proof. unfold serializer_getitem. by intros ->. Qed.

(** Case analysis on everything a run still branches on, once the request
    is known to negotiate to a serializer. *)
Ltac innermost_case :=
  match goal with
  | |- context [match ?x with _ => _ end] =>
      lazymatch x with
      | context [match _ with _ => _ end] => fail
      | _ => destruct x eqn:?
      end
  end.

Ltac handler_cases Hser :=
  repeat first
    [ progress simpl
    | rewrite (serializer_getitem_Some _ _ _ _ Hser)
    | innermost_case ].

(** ** C1: requests without an acceptable representation *)

(** C1, as stated, fails: for an Accept header of [application/xml] only,
    [get_config] answers 406 but has by then read the exposure flag from the
    store, with [get] and with [getboolean]. *)
Lemma not_acceptable_has_read_the_flag :
  negotiate (accepting ["application/xml"]) = None
  ∧ run (get_config (accepting ["application/xml"]) None) (store "True")
    = (inr not_acceptable,
       [CallGet "webserver" "expose_config";
        CallGetBoolean "webserver" "expose_config"])
  ∧ ¬ reads_no_configuration
        (run (get_config (accepting ["application/xml"]) None) (store "True")).
Proof. repeat split. intros H. vm_compute in H. discriminate H. Qed.

Lemma not_acceptable_run
    (c : AirflowConfigParser) (request : Request)
    (section_arg : option string) (section option : string) :
  in_serializer (negotiate request) = false →
  run (get_config request section_arg) c = (inr not_acceptable, flag_reads c)
  ∧ run (get_value request section option) c = (inr not_acceptable, flag_reads c).
Proof.
  intros Hneg. step_handler.
  destruct (String.eqb _ "non-sensitive-only"); simpl; rewrite Hneg; done.
Qed.

Lemma flag_reads_are_flag_reads (c : AirflowConfigParser) :
  forallb is_flag_read (flag_reads c) = true.
Proof. unfold flag_reads. by destruct (non_sensitive_only c). Qed.

(** C1, amended: for every request whose negotiated type is not one of the
    two serializers, [get_config] and [get_value] answer 406, and all they
    have read from the store is the exposure flag: [get] of
    [webserver.expose_config], followed by [getboolean] of it unless the
    flag reads [non-sensitive-only].  In particular no [has_section],
    [has_option] or [as_dict] is called and no requested value is read. *)
Theorem not_acceptable_reads_only_the_flag
    (c : AirflowConfigParser) (request : Request)
    (section_arg : option string) (section option : string) :
  in_serializer (negotiate request) = false →
  run (get_config request section_arg) c = (inr not_acceptable, flag_reads c)
  ∧ run (get_value request section option) c = (inr not_acceptable, flag_reads c)
  ∧ forallb is_flag_read (flag_reads c) = true.
Proof.
  intros Hneg.
  destruct (not_acceptable_run c request section_arg section option Hneg).
  auto using flag_reads_are_flag_reads.
Qed.

Lemma not_acceptable_reads_only_the_flag_witness :
  run (get_config (accepting ["application/xml"]) (Some "a")) (store "True")
  = (inr not_acceptable, flag_reads (store "True"))
  ∧ run (get_value (accepting ["application/xml"]) "a" "k1") (store "True")
    = (inr not_acceptable, flag_reads (store "True"))
  ∧ forallb is_flag_read (flag_reads (store "True")) = true.
Proof.
  apply (not_acceptable_reads_only_the_flag
           (store "True") (accepting ["application/xml"]) (Some "a") "a" "k1").
  reflexivity.
Defined.

(** ** C2: the exposure gate comes before the existence checks *)

(** C2: when the negotiation succeeds and exposure is disabled (the flag
    does not read [non-sensitive-only] and parses as false), [get_config],
    for any section argument, and [get_value], for any section and option,
    raise [PermissionDenied], which is answered with 403; the store has
    been asked for the flag only, so that no [has_section] or [has_option]
    check precedes the denial and [NotFound] cannot be raised. *)
Theorem disabled_exposure_is_denied
    (c : AirflowConfigParser) (request : Request)
    (section_arg : option string) (section option : string) :
  in_serializer (negotiate request) = true →
  non_sensitive_only c = false →
  flag_boolean c = false →
  let denied := PermissionDenied PERMISSION_DENIED_DETAIL in
  let reads := [CallGet "webserver" "expose_config";
                CallGetBoolean "webserver" "expose_config"] in
  run (get_config request section_arg) c = (inl denied, reads)
  ∧ run (get_value request section option) c = (inl denied, reads)
  ∧ status_code denied = Some 403
  ∧ existsb is_existence_check reads = false.
Proof.
  intros Hneg Hnso Hbool. step_handler.
  rewrite Hnso; simpl. rewrite Hbool, Hneg; simpl. done.
Qed.

Lemma disabled_exposure_is_denied_witness :
  let denied := PermissionDenied PERMISSION_DENIED_DETAIL in
  let reads := [CallGet "webserver" "expose_config";
                CallGetBoolean "webserver" "expose_config"] in
  run (get_config (accepting ["text/plain"]) (Some "no_such_section")) (store "False")
  = (inl denied, reads)
  ∧ run (get_value (accepting ["text/plain"]) "a" "no_such_option") (store "False")
    = (inl denied, reads)
  ∧ status_code denied = Some 403
  ∧ existsb is_existence_check reads = false.
Proof.
  apply (disabled_exposure_is_denied
           (store "False") (accepting ["text/plain"])
           (Some "no_such_section") "a" "no_such_option");
    reflexivity.
Defined.

(** ** C3: the exposure flag *)

(** C3: for every value of the flag and every request that negotiates to
    [content_type].  If the lowercase flag is [non-sensitive-only], the
    full configuration is served from [as_dict(display_sensitive=False)]
    and [getboolean] is not consulted; otherwise it is served from
    [as_dict(display_sensitive=True)] when the flag parses as true and
    denied when it parses as false.  Whatever the arguments, [get_config]
    and [get_value] deny exactly when the flag is not [non-sensitive-only]
    and parses as false, and [get_config] never passes another
    [display_sensitive] to the store. *)
Theorem exposure_flag_decides
    (c : AirflowConfigParser) (request : Request)
    (content_type : string) (render : Config → string)
    (section_arg : option string) (section option : string) :
  negotiate request = Some content_type →
  PyDict.get serializer content_type = Some render →
  let denied : Exception + Response := inl (PermissionDenied PERMISSION_DENIED_DETAIL) in
  let served display_sensitive :=
    inr (ok content_type
            (render (_conf_dict_to_config (configuration.as_dict c false display_sensitive)))) in
  run (get_config request None) c
  = (if non_sensitive_only c then
       (served false,
        [CallGet "webserver" "expose_config"; CallAsDict false false])
     else if flag_boolean c then
       (served true,
        [CallGet "webserver" "expose_config";
         CallGetBoolean "webserver" "expose_config"; CallAsDict false true])
     else
       (denied,
        [CallGet "webserver" "expose_config";
         CallGetBoolean "webserver" "expose_config"]))
  ∧ ((run (get_config request section_arg) c).1 = denied
     ↔ non_sensitive_only c = false ∧ flag_boolean c = false)
  ∧ ((run (get_value request section option) c).1 = denied
     ↔ non_sensitive_only c = false ∧ flag_boolean c = false)
  ∧ (∀ display_source display_sensitive,
       CallAsDict display_source display_sensitive
         ∈ (run (get_config request section_arg) c).2 →
       display_source = false
       ∧ display_sensitive = negb (non_sensitive_only c)).
Proof.
  intros Hneg Hser denied served.
  pose proof (in_serializer_Some _ _ Hser) as Hin.
  subst denied served.
  split; [|split; [|split]].
  - step_handler. rewrite Hneg, Hin; simpl.
    destruct (String.eqb _ "non-sensitive-only"); simpl; rewrite ?Hin, ?Hser; simpl.
    + by rewrite (serializer_getitem_Some _ _ _ _ Hser).
    + destruct (configuration.getboolean c _ _); simpl;
        by rewrite ?(serializer_getitem_Some _ _ _ _ Hser).
  - step_handler. rewrite Hneg, Hin. handler_cases Hser; intuition congruence.
  - step_handler. rewrite Hneg, Hin. handler_cases Hser; intuition congruence.
  - intros dsrc dsens. step_handler. rewrite Hneg, Hin.
    handler_cases Hser; rewrite ?elem_of_cons, ?elem_of_nil; intuition congruence.
Qed.

Lemma exposure_flag_decides_witness :
  let c := store "Non-Sensitive-Only" in
  let request := accepting ["text/plain"] in
  let denied : Exception + Response := inl (PermissionDenied PERMISSION_DENIED_DETAIL) in
  let served display_sensitive :=
    inr (ok "text/plain"
            (_config_to_text
               (_conf_dict_to_config (configuration.as_dict c false display_sensitive)))) in
  run (get_config request None) c
  = (if non_sensitive_only c then
       (served false,
        [CallGet "webserver" "expose_config"; CallAsDict false false])
     else if flag_boolean c then
       (served true,
        [CallGet "webserver" "expose_config";
         CallGetBoolean "webserver" "expose_config"; CallAsDict false true])
     else
       (denied,
        [CallGet "webserver" "expose_config";
         CallGetBoolean "webserver" "expose_config"]))
  ∧ ((run (get_config request (Some "core")) c).1 = denied
     ↔ non_sensitive_only c = false ∧ flag_boolean c = false)
  ∧ ((run (get_value request "core" "fernet_key") c).1 = denied
     ↔ non_sensitive_only c = false ∧ flag_boolean c = false)
  ∧ (∀ display_source display_sensitive,
       CallAsDict display_source display_sensitive
         ∈ (run (get_config request (Some "core")) c).2 →
       display_source = false
       ∧ display_sensitive = negb (non_sensitive_only c)).
Proof.
  apply (exposure_flag_decides
           (store "Non-Sensitive-Only") (accepting ["text/plain"])
           "text/plain" _config_to_text (Some "core") "core" "fernet_key");
    reflexivity.
Defined.

(** ** C6: sensitive values in [get_value] *)

(** C6: when the negotiation succeeds, exposure is enabled in either way
    (so also when the flag is plainly true) and the store has the option,
    [get_value] answers 200 with a snapshot of one section and one option,
    under the names as requested.  Its value is the marker [< hidden >] if
    the lowercased pair is in the store's registry of sensitive values,
    and then the value is not read; otherwise it is what [conf.get] gives
    for the pair, unchanged. *)
Theorem get_value_hides_registered_pairs
    (c : AirflowConfigParser) (request : Request)
    (content_type : string) (render : Config → string)
    (section option : string) :
  negotiate request = Some content_type →
  PyDict.get serializer content_type = Some render →
  exposure_enabled c = true →
  configuration.has_option c section option = true →
  let registered :=
    bool_decide ((lower section, lower option) ∈ configuration.sensitive_config_values c) in
  let shown :=
    if registered then "< hidden >" else configuration.get c section option in
  let snapshot :=
    {| sections := [ {| name := section;
                        options := [ {| key := option; value := shown |} ] |} ] |} in
  run (get_value request section option) c
  = (inr (ok content_type (render snapshot)),
     flag_reads c
     ++ [CallHasOption section option; ReadSensitiveConfigValues]
     ++ (if registered then [] else [CallGet section option]))
  ∧ _config_to_text snapshot
    = "[" +:+ section +:+ "]" +:+ LINE_SEP
      +:+ option +:+ " = " +:+ shown +:+ LINE_SEP.
Proof.
  intros Hneg Hser Hen Hopt registered shown snapshot.
  pose proof (in_serializer_Some _ _ Hser) as Hin.
  subst registered shown snapshot. split.
  - step_handler. rewrite Hneg, Hin.
    apply orb_true_iff in Hen.
    handler_cases Hser; rewrite ?Hopt in *; simpl in *; intuition congruence.
  - unfold _config_to_text, _section_to_text, _option_to_text, join; simpl.
    by rewrite !append_assoc.
Qed.

Lemma get_value_hides_registered_pairs_witness :
  let c := store "True" in
  let snapshot :=
    {| sections := [ {| name := "CORE";
                        options := [ {| key := "Fernet_Key"; value := "< hidden >" |} ] |} ] |} in
  run (get_value (accepting ["application/json"; "text/plain"]) "CORE" "Fernet_Key") c
  = (inr (ok "text/plain" (_config_to_text snapshot)),
     flag_reads c
     ++ [CallHasOption "CORE" "Fernet_Key"; ReadSensitiveConfigValues]
     ++ [])
  ∧ _config_to_text snapshot
    = "[" +:+ "CORE" +:+ "]" +:+ LINE_SEP
      +:+ "Fernet_Key" +:+ " = " +:+ "< hidden >" +:+ LINE_SEP.
Proof.
  apply (get_value_hides_registered_pairs
           (store "True") (accepting ["application/json"; "text/plain"])
           "text/plain" _config_to_text "CORE" "Fernet_Key");
    reflexivity.
Defined.

(** The registry is asked for the names in lower case, also for a
    Latin-1 capital: the section [À] is hidden by a registry that holds
    [à], and is shown by a registry that holds [À] as written. *)
Lemma get_value_lowercases_latin1_names :
  let one value :=
    {| sections := [ {| name := Scenario.capital_a_grave;
                        options := [ {| key := "k"; value := value |} ] |} ] |} in
  lower Scenario.capital_a_grave = Scenario.small_a_grave
  ∧ (run (get_value (accepting ["text/plain"]) Scenario.capital_a_grave "k")
         (Scenario.registering {[ (Scenario.small_a_grave, "k") ]})).1
    = inr (ok "text/plain" (_config_to_text (one "< hidden >")))
  ∧ (run (get_value (accepting ["text/plain"]) Scenario.capital_a_grave "k")
         (Scenario.registering {[ (Scenario.capital_a_grave, "k") ]})).1
    = inr (ok "text/plain" (_config_to_text (one "plain"))).
Proof. repeat split; vm_compute; reflexivity. Qed.

(** ** C7: one section of the configuration *)

(** C7: when [get_config] is called with a section name (a non-empty
    string) that the store reports as existing, the negotiation succeeds
    and exposure is enabled, the body renders a snapshot of exactly one
    section: the named one, with the options that the store's mapping has
    for it, in the order of that mapping.  No other section of the
    mapping is in the snapshot. *)
Theorem get_config_narrows_to_section
    (c : AirflowConfigParser) (request : Request)
    (content_type : string) (render : Config → string)
    (section : string) (section_options : PyDict.t string) :
  negotiate request = Some content_type →
  PyDict.get serializer content_type = Some render →
  exposure_enabled c = true →
  section ≠ EmptyString →
  configuration.has_section c section = true →
  PyDict.get (configuration.as_dict c false (negb (non_sensitive_only c))) section
  = Some section_options →
  let snapshot :=
    {| sections :=
         [ {| name := section;
              options := map (λ kv, {| key := kv.1; value := kv.2 |}) section_options |} ] |} in
  run (get_config request (Some section)) c
  = (inr (ok content_type (render snapshot)),
     flag_reads c
     ++ [CallHasSection section; CallAsDict false (negb (non_sensitive_only c))])
  ∧ map name (sections snapshot) = [section]
  ∧ map key (concat (map options (sections snapshot))) = PyDict.keys section_options.
Proof.
  intros Hneg Hser Hen Hne Hsec Hget snapshot.
  pose proof (in_serializer_Some _ _ Hser) as Hin.
  assert (truthy section = true) as Htruthy by (by destruct section).
  subst snapshot. split; [|split].
  - step_handler. rewrite Hneg, Hin, Htruthy.
    apply orb_true_iff in Hen.
    assert (map (λ '(key, value), {| key := key; value := value |}) section_options
            = map (λ kv, {| key := kv.1; value := kv.2 |}) section_options) as Hmap
      by (apply map_ext; by intros [??]).
    destruct (String.eqb _ "non-sensitive-only"); simpl in *.
    + rewrite Hsec; simpl. rewrite Hget; simpl.
      rewrite (serializer_getitem_Some _ _ _ _ Hser).
      unfold _conf_dict_to_config, ok, PyDict.items; simpl. by rewrite Hmap.
    + destruct Hen as [?|Hen]; [done|]. rewrite Hen; simpl.
      rewrite Hsec; simpl. rewrite Hget; simpl.
      rewrite (serializer_getitem_Some _ _ _ _ Hser).
      unfold _conf_dict_to_config, ok, PyDict.items; simpl. by rewrite Hmap.
  - done.
  - simpl. rewrite app_nil_r, map_map. done.
Qed.

Lemma get_config_narrows_to_section_witness :
  let c := store "True" in
  let snapshot :=
    {| sections :=
         [ {| name := "a";
              options := map (λ kv, {| key := kv.1; value := kv.2 |})
                             [("k1", "v1"); ("k2", "v2")] |} ] |} in
  run (get_config (accepting ["application/json"]) (Some "a")) c
  = (inr (ok "application/json" (_config_to_json snapshot)),
     flag_reads c
     ++ [CallHasSection "a"; CallAsDict false (negb (non_sensitive_only c))])
  ∧ map name (sections snapshot) = ["a"]
  ∧ map key (concat (map options (sections snapshot)))
    = PyDict.keys [("k1", "v1"); ("k2", "v2")].
Proof.
  apply (get_config_narrows_to_section
           (store "True") (accepting ["application/json"])
           "application/json" _config_to_json "a" [("k1", "v1"); ("k2", "v2")]);
    try reflexivity.
  discriminate.
Defined.

(** ** C9: the Content-Type of a successful answer *)

(** C9: whenever [get_config] or [get_value] answers with status 200, the
    request has negotiated a media type, the only header of the answer is
    [Content-Type] with exactly that type, and the body has been produced
    by the serializer registered for it: [_config_to_text] for
    [text/plain], [_config_to_json] for [application/json]. *)
Theorem content_type_is_the_negotiated_type
    (c : AirflowConfigParser) (request : Request)
    (section_arg : option string) (section option : string) (answer : Response) :
  (run (get_config request section_arg) c).1 = inr answer
  ∨ (run (get_value request section option) c).1 = inr answer →
  status answer = 200 →
  ∃ (content_type : string) (config : Config),
    negotiate request = Some content_type
    ∧ headers answer = [("Content-Type", content_type)]
    ∧ PyDict.get (headers answer) "Content-Type" = Some content_type
    ∧ (content_type = "text/plain" ∧ response answer = _config_to_text config
       ∨ content_type = "application/json" ∧ response answer = _config_to_json config).
Proof.
  intros Hrun Hstatus.
  destruct (in_serializer (negotiate request)) eqn:Hin.
  - assert (∃ content_type render,
              negotiate request = Some content_type
              ∧ PyDict.get serializer content_type = Some render
              ∧ (content_type = "text/plain" ∧ render = _config_to_text
                 ∨ content_type = "application/json" ∧ render = _config_to_json))
      as (content_type & render & Hneg & Hser & Hwhich).
    { destruct (in_serializer_cases _ Hin) as [Hneg|Hneg]; rewrite Hneg; eauto 10. }
    assert (∀ config, ∃ config',
              content_type = "text/plain" ∧ render config = _config_to_text config'
              ∨ content_type = "application/json" ∧ render config = _config_to_json config')
      as Hbody by (intros config; exists config; destruct Hwhich as [[-> ->]|[-> ->]]; auto).
    exists content_type. rewrite Hneg in Hin.
    destruct Hrun as [Hrun|Hrun]; revert Hrun; step_handler; rewrite Hneg, Hin;
      handler_cases Hser; intros Hrun; simplify_eq; simpl in *;
      match goal with
      | |- ∃ _, _ ∧ _ ∧ _ ∧ (_ ∧ render ?config = _ ∨ _) =>
          destruct (Hbody config) as [config' Hconfig]; exists config'
      end;
      repeat split; done.
  - destruct (not_acceptable_run c request section_arg section option Hin)
      as [Hc Hv].
    rewrite Hc, Hv in Hrun. destruct Hrun; simplify_eq/=.
Qed.

Lemma content_type_is_the_negotiated_type_witness :
  let answer :=
    ok "text/plain" (_config_to_text (_conf_dict_to_config (settings "True"))) in
  ∃ (content_type : string) (config : Config),
    negotiate (accepting ["text/plain"]) = Some content_type
    ∧ headers answer = [("Content-Type", content_type)]
    ∧ PyDict.get (headers answer) "Content-Type" = Some content_type
    ∧ (content_type = "text/plain" ∧ response answer = _config_to_text config
       ∨ content_type = "application/json" ∧ response answer = _config_to_json config).
Proof.
  apply (content_type_is_the_negotiated_type
           (store "True") (accepting ["text/plain"]) None "a" "k1"
           (ok "text/plain" (_config_to_text (_conf_dict_to_config (settings "True"))))).
  - left. reflexivity.
  - reflexivity.
Defined.

(** ** C10: the empty string as section argument *)

(** C10: [get_config] called with the empty string as section behaves, on
    every store and request, exactly as called without a section.  So
    when the negotiation succeeds and exposure is enabled, the answer is
    200 with the rendering of the whole mapping of the store, and the
    store is asked for the flag and the mapping only: the existence of a
    section named by the empty string is not checked, whatever the store
    would say of it, and nothing is narrowed. *)
Theorem empty_section_serves_the_full_config
    (c : AirflowConfigParser) (request : Request)
    (content_type : string) (render : Config → string) :
  negotiate request = Some content_type →
  PyDict.get serializer content_type = Some render →
  exposure_enabled c = true →
  let display_sensitive := negb (non_sensitive_only c) in
  run (get_config request (Some EmptyString)) c
  = (inr (ok content_type
             (render (_conf_dict_to_config
                        (configuration.as_dict c false display_sensitive)))),
     flag_reads c ++ [CallAsDict false display_sensitive])
  ∧ run (get_config request (Some EmptyString)) c = run (get_config request None) c.
Proof.
  intros Hneg Hser Hen display_sensitive. subst display_sensitive.
  pose proof (in_serializer_Some _ _ Hser) as Hin.
  split; [|reflexivity].
  step_handler. rewrite Hneg, Hin. apply orb_true_iff in Hen.
  handler_cases Hser; destruct Hen; simplify_eq; done.
Qed.

Lemma empty_section_serves_the_full_config_witness :
  let c := store "True" in
  configuration.has_section c EmptyString = false
  ∧ run (get_config (accepting ["text/plain"]) (Some EmptyString)) c
    = (inr (ok "text/plain"
               (_config_to_text (_conf_dict_to_config (configuration.as_dict c false true)))),
       flag_reads c ++ [CallAsDict false true])
  ∧ run (get_config (accepting ["text/plain"]) (Some EmptyString)) c
    = run (get_config (accepting ["text/plain"]) None) c.
Proof.
  split; [reflexivity|].
  apply (empty_section_serves_the_full_config
           (store "True") (accepting ["text/plain"]) "text/plain" _config_to_text);
    reflexivity.
Defined.

(** ** C4, C5: text rendering *)

(** C4: the snapshot of the one section [a] with the options [k1 = v1] and
    [k2 = v2], in this order, is rendered as the header [[a]] on a line of
    its own and one [key = value] line per option, each line ended by a
    newline.  So is every snapshot of one section that has an option: the
    header line, then the option lines in order, and nothing after the
    newline of the last. *)
Theorem text_of_one_section :
  _config_to_text (_conf_dict_to_config [("a", [("k1", "v1"); ("k2", "v2")])])
  = String "[" (String "a" (String "]" (String "010"
      (String "k" (String "1" (String " " (String "=" (String " "
         (String "v" (String "1" (String "010"
      (String "k" (String "2" (String " " (String "=" (String " "
         (String "v" (String "2" (String "010" EmptyString)))))))))))))))))))
  ∧ ∀ (section : string) (first : ConfigOption) (others : list ConfigOption),
      _config_to_text {| sections := [ {| name := section; options := first :: others |} ] |}
      = "[" +:+ section +:+ "]" +:+ LINE_SEP
        +:+ foldr (λ o rest, key o +:+ " = " +:+ value o +:+ LINE_SEP +:+ rest)
                  EmptyString (first :: others).
Proof.
  split; [reflexivity|].
  intros section first others.
  unfold _config_to_text. cbn [sections map]. rewrite join_singleton.
  unfold _section_to_text. cbn [name options map].
  rewrite join_terminated, !append_assoc. do 3 f_equal.
  change (_option_to_text first :: map _option_to_text others)
    with (map _option_to_text (first :: others)).
  generalize (first :: others). intros l.
  induction l as [|o l IH]; [done|].
  cbn [map foldr]. unfold _option_to_text at 1. by rewrite IH, !append_assoc.
Qed.

(** C5, as stated, fails: two sections are not rendered as their two
    renderings one after the other, a newline more stands between them. *)
Lemma two_sections_are_not_concatenated :
  let config :=
    _conf_dict_to_config [("a", [("k1", "v1")]); ("b", [("k2", "v2")])] in
  _config_to_text config ≠ sections_concatenated config
  ∧ _config_to_text config
    = _section_to_text {| name := "a"; options := [ {| key := "k1"; value := "v1" |} ] |}
      +:+ LINE_SEP
      +:+ _section_to_text {| name := "b"; options := [ {| key := "k2"; value := "v2" |} ] |}.
Proof. split; [intros H; vm_compute in H; discriminate H | reflexivity]. Qed.

(** C5, amended: the renderer joins the renderings of the sections with
    one newline.  Every section's rendering ends with a newline of its
    own, so that in a snapshot of two or more sections a blank line
    separates each section from the next, nothing follows the last
    section, and the text is longer than the renderings together by one
    character per section after the first. *)
Theorem sections_are_joined_by_a_newline
    (first second : ConfigSection) (others : list ConfigSection) :
  let config := {| sections := first :: second :: others |} in
  _config_to_text config
  = _section_to_text first +:+ LINE_SEP
    +:+ _config_to_text {| sections := second :: others |}
  ∧ String.length (_config_to_text config)
    = String.length (sections_concatenated config) + S (length others)
  ∧ (∀ s, ∃ body, _section_to_text s = body +:+ LINE_SEP).
Proof.
  split; [reflexivity|split].
  - unfold _config_to_text, sections_concatenated.
    cbn [sections map]. rewrite length_join.
    cbn [length]. rewrite length_map. simpl. lia.
  - intros s. unfold _section_to_text.
    eexists. by rewrite <- append_assoc.
Qed.

(** ** The decoder inverts the encoder *)

(** An escaped character is read back as the character. *)
Lemma scanstring_escape_ascii (c : ascii) (tail : string) :
  json.scanstring (json.escape_ascii c +:+ tail)
  = match json.scanstring tail with
    | Some (str, rest) => Some (String c str, rest)
    | None => None
    end.
Proof. destruct c as [[] [] [] [] [] [] [] []]; reflexivity. Qed.

Lemma scanstring_escape_string (s rest : string) :
  json.scanstring (json.escape_string s +:+ json.quote +:+ rest) = Some (s, rest).
Proof.
  induction s as [|c s IH]; [reflexivity|].
  change (json.escape_string (String c s))
    with (json.escape_ascii c +:+ json.escape_string s).
  by rewrite append_assoc, scanstring_escape_ascii, IH.
Qed.

Lemma scan_once_string (fuel : nat) (s rest : string) :
  json.scan_once (S fuel) (json.encode_basestring_ascii s +:+ rest)
  = Some (JString s, rest).
Proof.
  unfold json.encode_basestring_ascii. rewrite !append_assoc.
  change (json.scan_once (S fuel) (json.quote +:+ ?x))
    with (match json.scanstring x with
          | Some (str, tail) => Some (JString str, tail)
          | None => None
          end).
  by rewrite scanstring_escape_string.
Qed.

Lemma skip_ws_spaces (n : nat) (rest : string) :
  json.skip_ws (json.spaces n +:+ rest) = json.skip_ws rest.
Proof. induction n as [|n IH]; [reflexivity | exact IH]. Qed.

Lemma skip_ws_newline_indent (n : nat) (rest : string) :
  json.skip_ws ((LINE_SEP +:+ json.spaces n) +:+ rest) = json.skip_ws rest.
Proof. rewrite append_assoc. exact (skip_ws_spaces n rest). Qed.

Lemma iterencode_starts_value (indent : nat) (v : JSON) (level : nat) (rest : string) :
  starts_value (json.iterencode indent v level +:+ rest).
Proof.
  destruct v as [|[]|s|[|x xs]|[|kv members]];
    eexists _, _; (split; [reflexivity|split; reflexivity]).
Qed.

Lemma skip_ws_starts_value (s : string) :
  starts_value s → json.skip_ws s = s.
Proof. intros (c & s' & -> & Hws & _). simpl. by rewrite Hws. Qed.

Section decoder.
Context (indent level : nat).

Let newline_indent : string := LINE_SEP +:+ json.spaces (indent * S level).
Let close : string := LINE_SEP +:+ json.spaces (indent * level).
Let separator : string := "," +:+ newline_indent.
Let encode (v : JSON) : string := json.iterencode indent v (S level).

Lemma iterencode_array (x : JSON) (xs : list JSON) (rest : string) :
  json.iterencode indent (JArray (x :: xs)) level +:+ rest
  = String "[" (newline_indent
      +:+ encode x
      +:+ foldr (λ part rest, separator +:+ part +:+ rest) EmptyString (map encode xs)
      +:+ close +:+ String "]" rest).
Proof.
  change (json.iterencode indent (JArray (x :: xs)) level)
    with ("[" +:+ newline_indent
          +:+ join separator (map encode (x :: xs)) +:+ close +:+ "]").
  cbn [map]. rewrite join_as_foldr, !append_assoc. reflexivity.
Qed.

Lemma scan_once_array_open (fuel : nat) (tail : string) :
  json.scan_once (S fuel) (String "[" tail)
  = match json.skip_ws tail with
    | String nextchar tail' =>
        if (nat_of_ascii nextchar =? 93)%nat then Some (JArray [], tail')
        else
          match json.JSONArray fuel (String nextchar tail') with
          | Some (values, tail'') => Some (JArray values, tail'')
          | None => None
          end
    | EmptyString => None
    end.
Proof. reflexivity. Qed.

Lemma JSONArray_step (fuel : nat) (s : string) :
  json.JSONArray (S fuel) s
  = match json.scan_once fuel s with
    | Some (value, tail) =>
        match json.skip_ws tail with
        | String "]" tail' => Some ([value], tail')
        | String "," tail' =>
            match json.JSONArray fuel (json.skip_ws tail') with
            | Some (values, tail'') => Some (value :: values, tail'')
            | None => None
            end
        | _ => None
        end
    | None => None
    end.
Proof. reflexivity. Qed.

Lemma JSONArray_items (xs : list JSON) :
  Forall decodes xs →
  ∀ (x : JSON) (fuel : nat) (rest : string),
    decodes x →
    S (size x) + list_sum (map (λ y, S (size y)) xs) ≤ fuel →
    json.JSONArray fuel
      (encode x
       +:+ foldr (λ part rest, separator +:+ part +:+ rest) EmptyString (map encode xs)
       +:+ close +:+ String "]" rest)
    = Some (x :: xs, rest).
Proof.
  induction 1 as [|y ys Hy Hys IH]; intros x fuel rest Hx Hfuel;
    (destruct fuel as [|fuel]; [simpl in Hfuel; lia|]);
    rewrite JSONArray_step; unfold encode at 1;
    (rewrite Hx by (simpl in Hfuel; lia)).
  - cbn [map foldr]. change (EmptyString +:+ ?s) with s.
    unfold close. rewrite skip_ws_newline_indent. reflexivity.
  - cbn [map foldr]. rewrite !append_assoc.
    change (json.skip_ws (separator +:+ ?s)) with (String "," (newline_indent +:+ s)).
    cbv iota beta.
    unfold newline_indent at 1. rewrite skip_ws_newline_indent.
    rewrite skip_ws_starts_value by apply iterencode_starts_value.
    fold (encode y).
    by rewrite (IH y fuel rest Hy) by (simpl in Hfuel; lia).
Qed.

Let encode_member (kv : string * JSON) : string :=
  json.encode_basestring_ascii kv.1 +:+ ": " +:+ encode kv.2.

Lemma encode_member_quoted (kv : string * JSON) (rest : string) :
  encode_member kv +:+ rest
  = String (ascii_of_nat 34)
      (json.escape_string kv.1 +:+ json.quote +:+ ": " +:+ encode kv.2 +:+ rest).
Proof.
  unfold encode_member, json.encode_basestring_ascii.
  by rewrite !append_assoc.
Qed.

Lemma iterencode_object (kv : string * JSON) (members : list (string * JSON))
    (rest : string) :
  json.iterencode indent (JObject (kv :: members)) level +:+ rest
  = String "{" (newline_indent
      +:+ encode_member kv
      +:+ foldr (λ part rest, separator +:+ part +:+ rest) EmptyString
                (map encode_member members)
      +:+ close +:+ String "}" rest).
Proof.
  change (json.iterencode indent (JObject (kv :: members)) level)
    with ("{" +:+ newline_indent
          +:+ join separator (map encode_member (kv :: members)) +:+ close +:+ "}").
  cbn [map]. rewrite join_as_foldr, !append_assoc. reflexivity.
Qed.

Lemma scan_once_object_open (fuel : nat) (tail : string) :
  json.scan_once (S fuel) (String "{" tail)
  = match json.skip_ws tail with
    | String "}" tail' => Some (JObject [], tail')
    | String q tail' =>
        if (nat_of_ascii q =? 34)%nat then
          match json.JSONObject fuel tail' with
          | Some (pairs, tail'') => Some (JObject pairs, tail'')
          | None => None
          end
        else None
    | EmptyString => None
    end.
Proof. reflexivity. Qed.

Lemma JSONObject_step (fuel : nat) (k tail tail' : string) :
  json.scanstring tail = Some (k, String ":" (String " " tail')) →
  starts_value tail' →
  json.JSONObject (S fuel) tail
  = match json.scan_once fuel tail' with
    | Some (value, tail'') =>
        match json.skip_ws tail'' with
        | String "}" rest => Some ([(k, value)], rest)
        | String "," rest =>
            match json.skip_ws rest with
            | String q rest' =>
                if (nat_of_ascii q =? 34)%nat then
                  match json.JSONObject fuel rest' with
                  | Some (pairs, rest'') => Some ((k, value) :: pairs, rest'')
                  | None => None
                  end
                else None
            | EmptyString => None
            end
        | _ => None
        end
    | None => None
    end.
Proof.
  intros Hkey Hstart.
  change (json.JSONObject (S fuel) tail)
    with (match json.scanstring tail with
          | Some (k, tail) =>
              match json.skip_ws tail with
              | String ":" tail' =>
                  match json.scan_once fuel (json.skip_ws tail') with
                  | Some (value, tail'') =>
                      match json.skip_ws tail'' with
                      | String "}" rest => Some ([(k, value)], rest)
                      | String "," rest =>
                          match json.skip_ws rest with
                          | String q rest' =>
                              if (nat_of_ascii q =? 34)%nat then
                                match json.JSONObject fuel rest' with
                                | Some (pairs, rest'') =>
                                    Some ((k, value) :: pairs, rest'')
                                | None => None
                                end
                              else None
                          | EmptyString => None
                          end
                      | _ => None
                      end
                  | None => None
                  end
              | _ => None
              end
          | None => None
          end).
  rewrite Hkey.
  change (json.skip_ws (String ":" (String " " tail')))
    with (String ":" (String " " tail')).
  cbv iota beta.
  change (json.skip_ws (String " " tail')) with (json.skip_ws tail').
  by rewrite (skip_ws_starts_value _ Hstart).
Qed.

Lemma JSONObject_members (members : list (string * JSON)) :
  Forall (λ kv, decodes kv.2) members →
  ∀ (kv : string * JSON) (fuel : nat) (rest : string),
    decodes kv.2 →
    S (size kv.2) + list_sum (map (λ kv', S (size kv'.2)) members) ≤ fuel →
    json.JSONObject fuel
      (json.escape_string kv.1 +:+ json.quote +:+ ": " +:+ encode kv.2
       +:+ foldr (λ part rest, separator +:+ part +:+ rest) EmptyString
                 (map encode_member members)
       +:+ close +:+ String "}" rest)
    = Some (kv :: members, rest).
Proof.
  induction 1 as [|kv' members' Hkv' Hmembers IH]; intros [k v] fuel rest Hv Hfuel;
    (destruct fuel as [|fuel]; [simpl in Hfuel; lia|]);
    cbn [fst snd] in *;
    match goal with
    | |- json.JSONObject _ (?a +:+ ?b +:+ ?c +:+ ?tl) = _ =>
        rewrite (JSONObject_step fuel k (a +:+ b +:+ c +:+ tl) tl
                   (scanstring_escape_string k _) (iterencode_starts_value _ _ _ _))
    end;
    unfold encode at 1; (rewrite Hv by (simpl in Hfuel; lia)).
  - cbn [map foldr]. change (EmptyString +:+ ?s) with s.
    unfold close. rewrite skip_ws_newline_indent. reflexivity.
  - cbn [map foldr]. rewrite !append_assoc.
    change (json.skip_ws (separator +:+ ?s)) with (String "," (newline_indent +:+ s)).
    cbv iota beta.
    unfold newline_indent at 1. rewrite skip_ws_newline_indent.
    rewrite encode_member_quoted.
    change (json.skip_ws (String (ascii_of_nat 34) ?s)) with (String (ascii_of_nat 34) s).
    cbv iota beta.
    change (nat_of_ascii (ascii_of_nat 34) =? 34)%nat with true. cbv iota.
    by rewrite (IH kv' fuel rest Hkv') by (simpl in Hfuel; lia).
Qed.

End decoder.

Lemma size_JArray (x : JSON) (xs : list JSON) :
  size (JArray (x :: xs)) = S (S (size x) + list_sum (map (λ y, S (size y)) xs)).
Proof. reflexivity. Qed.

Lemma size_JObject (kv : string * JSON) (members : list (string * JSON)) :
  size (JObject (kv :: members))
  = S (S (size kv.2) + list_sum (map (λ kv', S (size kv'.2)) members)).
Proof. reflexivity. Qed.

(** The decoder reads back every encoded value. *)
Lemma iterencode_decodes (v : JSON) : decodes v.
Proof.
  induction v as [|b|s|items IH|members IH] using JSON_nested_ind;
    intros indent level fuel rest Hfuel;
    (destruct fuel as [|fuel]; [simpl in Hfuel; lia|]).
  - reflexivity.
  - by destruct b.
  - apply scan_once_string.
  - destruct IH as [|x xs Hx Hxs]; [reflexivity|].
    rewrite iterencode_array, scan_once_array_open, skip_ws_newline_indent.
    rewrite skip_ws_starts_value by apply iterencode_starts_value.
    destruct (iterencode_starts_value indent x (S level)
                (foldr (λ part rest, ("," +:+ LINE_SEP +:+ json.spaces (indent * S level))
                                     +:+ part +:+ rest) EmptyString
                       (map (λ v, json.iterencode indent v (S level)) xs)
                 +:+ (LINE_SEP +:+ json.spaces (indent * level)) +:+ String "]" rest))
      as (c & s' & Heq & _ & Hclose).
    rewrite Heq. cbv iota beta. rewrite Hclose, <- Heq.
    rewrite size_JArray in Hfuel.
    by rewrite (JSONArray_items indent level xs Hxs x fuel rest Hx) by lia.
  - destruct IH as [|[k v] members Hv Hmembers]; [reflexivity|].
    rewrite iterencode_object, scan_once_object_open, skip_ws_newline_indent.
    rewrite encode_member_quoted.
    change (json.skip_ws (String (ascii_of_nat 34) ?s)) with (String (ascii_of_nat 34) s).
    cbv iota beta.
    change (nat_of_ascii (ascii_of_nat 34) =? 34)%nat with true. cbv iota.
    rewrite size_JObject in Hfuel. cbn [snd] in Hfuel.
    by rewrite (JSONObject_members indent level members Hmembers (k, v) fuel rest Hv)
      by (cbn [snd]; lia).
Qed.

(** The length of the input is fuel enough for the decoder. *)
Lemma length_separated {A} (sep : string) (f : A → string) (g : A → nat) (l : list A) :
  1 ≤ String.length sep →
  Forall (λ y, g y ≤ String.length (f y)) l →
  list_sum (map (λ y, S (g y)) l)
  ≤ String.length (foldr (λ part rest, sep +:+ part +:+ rest) EmptyString (map f l)).
Proof.
  intros Hsep. induction 1 as [|y l Hy Hl IH]; [done|].
  cbn [map foldr list_sum fold_right]. rewrite !length_append.
  fold (list_sum (map (λ y, S (g y)) l)).
  lia.
Qed.

Lemma separator_nonempty (indent level : nat) :
  1 ≤ String.length ("," +:+ LINE_SEP +:+ json.spaces (indent * S level)).
Proof.
  change (1 ≤ S (String.length (LINE_SEP +:+ json.spaces (indent * S level)))). lia.
Qed.

Lemma size_le_length (v : JSON) (indent level : nat) :
  size v ≤ String.length (json.iterencode indent v level).
Proof.
  revert level.
  induction v as [|b|s|items IH|members IH] using JSON_nested_ind; intros level.
  - simpl. lia.
  - destruct b; simpl; lia.
  - simpl. lia.
  - destruct IH as [|x xs Hx Hxs]; [simpl; lia|].
    rewrite <- (append_nil_r (json.iterencode indent (JArray (x :: xs)) level)).
    rewrite iterencode_array, size_JArray.
    cbn [String.length]. rewrite !length_append.
    pose proof (Hx (S level)).
    pose proof (length_separated
                  ("," +:+ LINE_SEP +:+ json.spaces (indent * S level))
                  (λ v, json.iterencode indent v (S level)) size xs) as Hsum.
    specialize (Hsum (separator_nonempty indent level)
                  ltac:(eapply Forall_impl; [exact Hxs|]; intros y Hy; apply Hy)).
    cbn [String.length] in *. lia.
  - destruct IH as [|[k v] members Hv Hmembers]; [simpl; lia|].
    rewrite <- (append_nil_r (json.iterencode indent (JObject ((k, v) :: members)) level)).
    rewrite iterencode_object, size_JObject.
    cbn [String.length fst snd]. rewrite !length_append.
    pose proof (Hv (S level)).
    pose proof (length_separated
                  ("," +:+ LINE_SEP +:+ json.spaces (indent * S level))
                  (λ kv : string * JSON,
                     json.encode_basestring_ascii kv.1 +:+ ": "
                     +:+ json.iterencode indent kv.2 (S level))
                  (λ kv, size kv.2) members) as Hsum.
    specialize (Hsum (separator_nonempty indent level)
                  ltac:(eapply Forall_impl; [exact Hmembers|];
                        intros kv Hkv; cbn beta; rewrite !length_append;
                        specialize (Hkv (S level)); lia)).
    cbn [String.length snd] in *. lia.
Qed.

(** [json.loads] reads what [json.dumps] wrote, for every value and every
    indent. *)
Lemma loads_dumps (v : JSON) (indent : nat) :
  json.loads (json.dumps v indent) = Some (json.object_hook v).
Proof.
  unfold json.loads, json.dumps.
  pose proof (iterencode_starts_value indent v 0 EmptyString) as Hstart.
  rewrite append_nil_r in Hstart. rewrite (skip_ws_starts_value _ Hstart).
  rewrite <- (append_nil_r (json.iterencode indent v 0)) at 2.
  rewrite (iterencode_decodes v) by (pose proof (size_le_length v indent 0); lia).
  reflexivity.
Qed.

(** The objects of a dumped snapshot have distinct keys: as dictionaries
    they are what was written. *)
Lemma object_hook_dump (config : Config) :
  json.object_hook (config_schema.dump config) = config_schema.dump config.
Proof.
  assert (∀ o, json.object_hook (config_schema.dump_option o)
               = config_schema.dump_option o) as Hoption by done.
  assert (∀ s, json.object_hook (config_schema.dump_section s)
               = config_schema.dump_section s) as Hsection.
  { intros [n opts]. unfold config_schema.dump_section. cbn [name options].
    change (json.object_hook (JObject [("name", JString n); ("options", JArray ?l)]))
      with (JObject [("name", JString n); ("options", JArray (map json.object_hook l))]).
    rewrite map_map, (map_ext _ _ Hoption). reflexivity. }
  destruct config as [secs]. unfold config_schema.dump. cbn [sections].
  change (json.object_hook (JObject [("sections", JArray ?l)]))
    with (JObject [("sections", JArray (map json.object_hook l))]).
  rewrite map_map, (map_ext _ _ Hsection). reflexivity.
Qed.

Lemma read_back_dump (config : Config) :
  read_back.config (config_schema.dump config) = Some config.
Proof.
  assert (∀ opts, mapM read_back.option_ (map config_schema.dump_option opts)
                  = Some opts) as Hoptions.
  { induction opts as [|[k v] opts IH]; [done|].
    cbn [map mapM]. rewrite IH. reflexivity. }
  assert (∀ secs, mapM read_back.section (map config_schema.dump_section secs)
                  = Some secs) as Hsections.
  { induction secs as [|[n opts] secs IH]; [done|].
    cbn [map mapM]. rewrite IH.
    unfold read_back.section, config_schema.dump_section. cbn [name options].
    change (read_back.field "name" (JObject (("name", JString n) :: ?l)))
      with (Some (JString n)).
    change (read_back.field "options"
              (JObject [("name", JString n); ("options", JArray ?l)]))
      with (Some (JArray l)).
    cbn [mbind option_bind read_back.str read_back.items].
    rewrite Hoptions. reflexivity. }
  destruct config as [secs]. unfold read_back.config, config_schema.dump.
  cbn [sections].
  change (read_back.field "sections" (JObject [("sections", JArray ?l)]))
    with (Some (JArray l)).
  cbn [mbind option_bind read_back.items]. rewrite Hsections. reflexivity.
Qed.

(** Every snapshot rendered as JSON and parsed back is the object that
    the schema dumped, and reads back as the snapshot. *)
Lemma json_round_trip_of_any_snapshot (config : Config) :
  json.loads (_config_to_json config) = Some (config_schema.dump config)
  ∧ json.loads (_config_to_json config) ≫= read_back.config = Some config.
Proof.
  unfold _config_to_json. rewrite loads_dumps, object_hook_dump.
  split; [done|]. cbn [mbind option_bind]. apply read_back_dump.
Qed.

(** ** C8: JSON round trip *)

(** C8: the snapshot of the one section [a] with [k1 = v1] and [k2 = v2],
    rendered by [_config_to_json] and parsed by [json.loads], gives the
    object that the schema dumped: one section named [a] whose options are
    [k1] with [v1] and then [k2] with [v2]; read back as a snapshot, it is
    the snapshot rendered. *)
Theorem json_round_trip :
  let snapshot := _conf_dict_to_config [("a", [("k1", "v1"); ("k2", "v2")])] in
  json.loads (_config_to_json snapshot)
  = Some (JObject
            [("sections",
              JArray
                [JObject
                   [("name", JString "a");
                    ("options",
                     JArray
                       [JObject [("key", JString "k1"); ("value", JString "v1")];
                        JObject [("key", JString "k2"); ("value", JString "v2")]])]])])
  ∧ json.loads (_config_to_json snapshot) = Some (config_schema.dump snapshot)
  ∧ json.loads (_config_to_json snapshot) ≫= read_back.config = Some snapshot.
Proof.
  intros snapshot. split; [by vm_compute|].
  apply json_round_trip_of_any_snapshot.
Qed.

(** * Further properties of the handlers and the renderers *)

Import Scenario.

(** ** The order of the checks *)

(** X1: the status [get_value] answers with, for every store, request and
    pair: 406 when the request negotiates to no serializer; else 403 when
    exposure is disabled; else 404 when the store has no such option;
    else 200.  An earlier check hides the later ones. *)
Theorem get_value_status_precedence
    (c : AirflowConfigParser) (request : Request) (section option : string) :
  http_status (run (get_value request section option) c).1
  = Some (if negb (in_serializer (negotiate request)) then 406
          else if negb (exposure_enabled c) then 403
          else if negb (configuration.has_option c section option) then 404
          else 200).
Proof.
  destruct (in_serializer (negotiate request)) eqn:Hin.
  - destruct (in_serializer_cases _ Hin) as [Hneg|Hneg];
      (assert (∃ render, PyDict.get serializer
                           (default EmptyString (negotiate request)) = Some render)
         as [render Hser] by (rewrite Hneg; eauto));
      rewrite Hneg in Hin, Hser; cbn [default] in Hser;
      step_handler; rewrite Hneg, Hin; handler_cases Hser; done.
  - destruct (not_acceptable_run c request None section option Hin) as [_ ->].
    reflexivity.
Qed.

(** X2: the status [get_config] answers with, for every store, request
    and section argument: 406 when the request negotiates to no
    serializer; else 403 when exposure is disabled; else 404 when a
    non-empty section is asked for that the store does not report; else
    200, unless the section asked for is reported by [has_section] and yet
    is no key of the mapping [as_dict] returns: then the subscript raises
    [KeyError], which has no status of the API. *)
Theorem get_config_status_precedence
    (c : AirflowConfigParser) (request : Request) (section_arg : option string) :
  http_status (run (get_config request section_arg) c).1
  = if negb (in_serializer (negotiate request)) then Some 406
    else if negb (exposure_enabled c) then Some 403
    else
      match section_arg with
      | Some section =>
          if negb (truthy section) then Some 200
          else if negb (configuration.has_section c section) then Some 404
          else if PyDict.contains
                    (configuration.as_dict c false (negb (non_sensitive_only c)))
                    section
               then Some 200
               else None
      | None => Some 200
      end.
Proof.
  destruct (in_serializer (negotiate request)) eqn:Hin.
  - destruct (in_serializer_cases _ Hin) as [Hneg|Hneg];
      (assert (∃ render, PyDict.get serializer
                           (default EmptyString (negotiate request)) = Some render)
         as [render Hser] by (rewrite Hneg; eauto));
      rewrite Hneg in Hin, Hser; cbn [default] in Hser;
      step_handler; rewrite Hneg, Hin; unfold PyDict.contains;
      handler_cases Hser; simplify_eq; done.
  - destruct (not_acceptable_run c request section_arg EmptyString EmptyString Hin)
      as [-> _].
    reflexivity.
Qed.

(** ** Unknown sections and options *)

(** X3: when the negotiation succeeds and exposure is enabled, [get_config]
    asked for a non-empty section that the store does not report raises
    [NotFound] with a detail naming the section.  The mapping of the store
    is not retrieved: after the flag, [has_section] is the only call. *)
Theorem unknown_section_is_not_found
    (c : AirflowConfigParser) (request : Request) (section : string) :
  in_serializer (negotiate request) = true →
  exposure_enabled c = true →
  section ≠ EmptyString →
  configuration.has_section c section = false →
  run (get_config request (Some section)) c
  = (inl (NotFound "section not found." ("section=" +:+ section +:+ " not found.")),
     flag_reads c ++ [CallHasSection section]).
Proof.
  intros Hin Hen Hne Hsec.
  assert (truthy section = true) as Htruthy by (by destruct section).
  apply orb_true_iff in Hen.
  step_handler. rewrite Hin, Htruthy.
  destruct (String.eqb _ "non-sensitive-only"); simpl.
  - by rewrite Hsec.
  - destruct Hen as [?|Hen]; [done|]. rewrite Hen. simpl. by rewrite Hsec.
Qed.

Lemma unknown_section_is_not_found_witness :
  run (get_config (accepting ["application/json"]) (Some "smtp")) (store "True")
  = (inl (NotFound "section not found." ("section=" +:+ "smtp" +:+ " not found.")),
     flag_reads (store "True") ++ [CallHasSection "smtp"]).
Proof.
  apply (unknown_section_is_not_found
           (store "True") (accepting ["application/json"]) "smtp");
    try reflexivity.
  discriminate.
Defined.

(** X4: when the negotiation succeeds and exposure is enabled, [get_value]
    asked for a pair that the store does not have raises [NotFound] with a
    detail naming section and option as asked.  Neither the registry of
    sensitive values nor any value is read: after the flag, [has_option]
    is the only call. *)
Theorem unknown_option_is_not_found
    (c : AirflowConfigParser) (request : Request) (section option : string) :
  in_serializer (negotiate request) = true →
  exposure_enabled c = true →
  configuration.has_option c section option = false →
  run (get_value request section option) c
  = (inl (NotFound "Config not found."
            ("The option [" +:+ section +:+ "/" +:+ option
             +:+ "] is not found in config.")),
     flag_reads c ++ [CallHasOption section option]).
Proof.
  intros Hin Hen Hopt.
  apply orb_true_iff in Hen.
  step_handler. rewrite Hin.
  destruct (String.eqb _ "non-sensitive-only"); simpl.
  - by rewrite Hopt.
  - destruct Hen as [?|Hen]; [done|]. rewrite Hen. simpl. by rewrite Hopt.
Qed.

Lemma unknown_option_is_not_found_witness :
  run (get_value (accepting ["text/plain"]) "core" "parallelism") (store "non-sensitive-only")
  = (inl (NotFound "Config not found."
            ("The option [" +:+ "core" +:+ "/" +:+ "parallelism"
             +:+ "] is not found in config.")),
     flag_reads (store "non-sensitive-only") ++ [CallHasOption "core" "parallelism"]).
Proof.
  apply (unknown_option_is_not_found
           (store "non-sensitive-only") (accepting ["text/plain"]) "core" "parallelism");
    reflexivity.
Defined.

(** X5: when the negotiation succeeds and exposure is enabled, a non-empty
    section that [has_section] reports but that is no key of the mapping
    [as_dict] returns makes [get_config] raise [KeyError] at the subscript
    [conf_dict[section]], after the mapping has been retrieved.  It is
    not turned into [NotFound]. *)
Theorem section_missing_from_mapping_is_key_error
    (c : AirflowConfigParser) (request : Request) (section : string) :
  in_serializer (negotiate request) = true →
  exposure_enabled c = true →
  section ≠ EmptyString →
  configuration.has_section c section = true →
  PyDict.get (configuration.as_dict c false (negb (non_sensitive_only c))) section = None →
  run (get_config request (Some section)) c
  = (inl (KeyError (Some section)),
     flag_reads c
     ++ [CallHasSection section; CallAsDict false (negb (non_sensitive_only c))]).
Proof.
  intros Hin Hen Hne Hsec Hget.
  assert (truthy section = true) as Htruthy by (by destruct section).
  apply orb_true_iff in Hen.
  step_handler. rewrite Hin, Htruthy.
  destruct (String.eqb _ "non-sensitive-only"); simpl in *.
  - rewrite Hsec. simpl. by rewrite Hget.
  - destruct Hen as [?|Hen]; [done|]. rewrite Hen. simpl.
    rewrite Hsec. simpl. by rewrite Hget.
Qed.

Lemma section_missing_from_mapping_is_key_error_witness :
  run (get_config (accepting ["text/plain"]) (Some "smtp")) overreporting
  = (inl (KeyError (Some "smtp")),
     flag_reads overreporting
     ++ [CallHasSection "smtp";
         CallAsDict false (negb (non_sensitive_only overreporting))]).
Proof.
  apply (section_missing_from_mapping_is_key_error
           overreporting (accepting ["text/plain"]) "smtp");
    try reflexivity.
  discriminate.
Defined.

(** ** What the handlers read *)

(** X6: a value registered as sensitive has no influence on what
    [get_value] does.  Two stores that answer alike for the exposure flag,
    for [has_option] of the pair and for the registry, and whose registry
    holds the lowercased pair, give the same outcome and the same log,
    whatever values they hold. *)
Theorem registered_value_has_no_influence
    (c1 c2 : AirflowConfigParser) (request : Request) (section option : string) :
  expose_flag c1 = expose_flag c2 →
  flag_boolean c1 = flag_boolean c2 →
  configuration.has_option c1 section option
  = configuration.has_option c2 section option →
  configuration.sensitive_config_values c1
  = configuration.sensitive_config_values c2 →
  bool_decide ((lower section, lower option)
                 ∈ configuration.sensitive_config_values c1) = true →
  run (get_value request section option) c1
  = run (get_value request section option) c2.
Proof.
  intros Hflag Hbool Hopt Hreg Hmem.
  destruct (in_serializer (negotiate request)) eqn:Hin.
  - destruct (in_serializer_cases _ Hin) as [Hneg|Hneg];
      (assert (∃ render, PyDict.get serializer
                           (default EmptyString (negotiate request)) = Some render)
         as [render Hser] by (rewrite Hneg; eauto));
      rewrite Hneg in Hin, Hser; cbn [default] in Hser;
      step_handler; rewrite Hneg, Hin;
      repeat first
        [ progress simpl
        | rewrite <- Hflag | rewrite <- Hbool | rewrite <- Hopt | rewrite <- Hreg
        | rewrite Hmem
        | rewrite (serializer_getitem_Some _ _ _ _ Hser)
        | innermost_case ];
      done.
  - destruct (not_acceptable_run c1 request None section option Hin) as [_ ->].
    destruct (not_acceptable_run c2 request None section option Hin) as [_ ->].
    unfold flag_reads, non_sensitive_only. by rewrite Hflag.
Qed.

Lemma registered_value_has_no_influence_witness :
  configuration.get (vault "s3cr3t") "core" "fernet_key"
  ≠ configuration.get (vault "rotated") "core" "fernet_key"
  ∧ run (get_value (accepting ["application/json"]) "core" "fernet_key") (vault "s3cr3t")
    = run (get_value (accepting ["application/json"]) "core" "fernet_key") (vault "rotated").
Proof.
  split; [discriminate|].
  apply (registered_value_has_no_influence
           (vault "s3cr3t") (vault "rotated")
           (accepting ["application/json"]) "core" "fernet_key");
    reflexivity.
Defined.

(** X7: what the handlers never ask the store.  Whatever the store, the
    request and the arguments, [get_config] calls nothing but [get] and
    [getboolean] of the exposure flag, [has_section] of the section asked
    for and [as_dict] without sources: it never looks into the registry of
    sensitive values nor at single options.  [get_value] calls nothing but
    the reads of the flag, [has_option] and [get] of the pair asked for
    and the registry: it never retrieves the mapping. *)
Theorem handlers_call_only_what_they_need
    (c : AirflowConfigParser) (request : Request)
    (section_arg : option string) (section option : string) :
  forallb (get_config_may_call section_arg)
          (run (get_config request section_arg) c).2 = true
  ∧ forallb (get_value_may_call section option)
            (run (get_value request section option) c).2 = true.
Proof.
  destruct (in_serializer (negotiate request)) eqn:Hin.
  - destruct (in_serializer_cases _ Hin) as [Hneg|Hneg];
      (assert (∃ render, PyDict.get serializer
                           (default EmptyString (negotiate request)) = Some render)
         as [render Hser] by (rewrite Hneg; eauto));
      rewrite Hneg in Hin, Hser; cbn [default] in Hser;
      (split; step_handler; rewrite Hneg, Hin; handler_cases Hser;
       rewrite ?String.eqb_refl, ?bool_decide_eq_true_2 by done;
       simpl; rewrite ?orb_true_r; done).
  - destruct (not_acceptable_run c request section_arg section option Hin)
      as [-> ->].
    unfold flag_reads. by destruct (non_sensitive_only c).
Qed.

(** ** What the renderings keep of a snapshot *)

(** X8: the JSON rendering is lossless on the strings of this
    development.  For every snapshot whose names, keys and values are
    strings of code points below 256 (control characters, quotes,
    backslashes and the characters 127-255 included), [json.loads] of
    [_config_to_json] succeeds, gives the object that the schema dumped,
    and that object reads back as the snapshot: the same sections, options
    and values in the same order.  Nothing is stated of strings with a
    code point above 255, which the encoder and the decoder here do not
    treat. *)
Theorem config_to_json_reads_back (config : Config) :
  json.loads (_config_to_json config) = Some (config_schema.dump config)
  ∧ json.loads (_config_to_json config) ≫= read_back.config = Some config.
Proof. exact (json_round_trip_of_any_snapshot config). Qed.

(** X9: [_config_to_json] is injective on the strings of this
    development: two snapshots whose names, keys and values are strings of
    code points below 256 and that differ in anything (a name, a key, a
    value, the order or number of sections or options) have different JSON
    renderings.  Nothing is stated of strings with a code point above
    255. *)
Theorem config_to_json_tells_snapshots_apart (config config' : Config) :
  config ≠ config' →
  _config_to_json config ≠ _config_to_json config'.
Proof.
  intros Hne Heq. apply Hne.
  destruct (json_round_trip_of_any_snapshot config) as [_ Hback].
  destruct (json_round_trip_of_any_snapshot config') as [_ Hback'].
  rewrite Heq, Hback' in Hback. by injection Hback.
Qed.

Lemma config_to_json_tells_snapshots_apart_witness :
  _config_to_json (_conf_dict_to_config [("a", [("k1", "v1"); ("k2", "v2")])])
  ≠ _config_to_json (_conf_dict_to_config [("a", [("k2", "v2"); ("k1", "v1")])]).
Proof.
  apply (config_to_json_tells_snapshots_apart
           (_conf_dict_to_config [("a", [("k1", "v1"); ("k2", "v2")])])
           (_conf_dict_to_config [("a", [("k2", "v2"); ("k1", "v1")])])).
  discriminate.
Defined.

(** X10: the text rendering is not lossless.  An option line is the key,
    the three characters [ = ] and the value, with nothing quoted: a key
    [k] with the value [a = b] and the key [k = a] with the value [b] are
    different options of different snapshots, and they are rendered as
    the same text. *)
Theorem config_to_text_confuses_snapshots (section k a b : string) :
  let one (key value : string) :=
    {| sections := [ {| name := section;
                        options := [ {| key := key; value := value |} ] |} ] |} in
  one k (a +:+ " = " +:+ b) ≠ one (k +:+ " = " +:+ a) b
  ∧ _config_to_text (one k (a +:+ " = " +:+ b))
    = _config_to_text (one (k +:+ " = " +:+ a) b).
Proof.
  intros one. split.
  - intros Heq. injection Heq as Hkey _.
    apply (f_equal String.length) in Hkey.
    rewrite !length_append in Hkey. simpl in Hkey. lia.
  - unfold one, _config_to_text, _section_to_text, _option_to_text.
    cbn [sections map name options key value]. rewrite !join_singleton.
    by rewrite !append_assoc.
Qed.

(** X11: the mapping can be recovered from the snapshot that
    [_conf_dict_to_config] makes of it: the sections are the keys of the
    mapping in their order, and of every section the options are the
    items of its inner mapping in their order.  Nothing is dropped,
    merged or reordered. *)
Theorem conf_dict_to_config_keeps_the_mapping (conf_dict : PyDict.t (PyDict.t string)) :
  map (λ s, (name s, map (λ o, (key o, value o)) (options s)))
      (sections (_conf_dict_to_config conf_dict))
  = conf_dict
  ∧ map name (sections (_conf_dict_to_config conf_dict)) = PyDict.keys conf_dict
  ∧ length (sections (_conf_dict_to_config conf_dict)) = length conf_dict.
Proof.
  unfold _conf_dict_to_config, PyDict.items, PyDict.keys. cbn [sections].
  split; [|split].
  - induction conf_dict as [|[section section_options] conf_dict IH]; [done|].
    cbn [map name options]. rewrite IH. do 2 f_equal.
    induction section_options as [|[k v] section_options IHo]; [done|].
    cbn [map key value]. by rewrite IHo.
  - induction conf_dict as [|[section section_options] conf_dict IH]; [done|].
    cbn [map name fmap list_fmap fst]. by rewrite IH.
  - by rewrite length_map.
Qed.

(** X12: a text rendering with a section in it is not empty and ends
    with a newline, however many sections and options there are; only the
    snapshot without sections is rendered as the empty text. *)
Theorem config_to_text_ends_with_a_newline
    (first : ConfigSection) (others : list ConfigSection) :
  _config_to_text {| sections := [] |} = EmptyString
  ∧ _config_to_text {| sections := first :: others |} ≠ EmptyString
  ∧ ∃ body, _config_to_text {| sections := first :: others |} = body +:+ LINE_SEP.
Proof.
  assert (∃ body, _config_to_text {| sections := first :: others |} = body +:+ LINE_SEP)
    as [body Hbody].
  { unfold _config_to_text. cbn [sections].
    revert first. induction others as [|second others IH]; intros first.
    - cbn [map]. rewrite join_singleton. unfold _section_to_text.
      eexists. by rewrite <- append_assoc.
    - destruct (IH second) as [body Hbody].
      cbn [map] in *. rewrite join_cons_cons, Hbody.
      eexists. by rewrite <- !append_assoc. }
  split; [reflexivity|]. split; [|by exists body].
  rewrite Hbody. intros Hempty.
  apply (f_equal String.length) in Hempty.
  rewrite length_append in Hempty. simpl in Hempty. lia.
Qed.

(** ** Scoped and full answers *)

Lemma section_snapshot_in_config
    (conf_dict : PyDict.t (PyDict.t string)) (section : string)
    (section_options : PyDict.t string) :
  PyDict.get conf_dict section = Some section_options →
  section_snapshot section section_options ∈ sections (_conf_dict_to_config conf_dict).
Proof.
  unfold _conf_dict_to_config, PyDict.items. cbn [sections].
  induction conf_dict as [|[s opts] conf_dict IH]; [discriminate|].
  unfold PyDict.get; fold (@PyDict.get (PyDict.t string)).
  destruct (String.eqb_spec section s) as [->|Hne]; intros Hget; cbn [map].
  - injection Hget as ->.
    assert (section_snapshot s section_options
            = {| name := s;
                 options := map (λ '(key, value), {| key := key; value := value |})
                                section_options |}) as ->
      by (unfold section_snapshot; f_equal; apply map_ext; by intros [??]).
    apply list_elem_of_here.
  - apply list_elem_of_further. by apply IH.
Qed.

Lemma scoped_run
    (c : AirflowConfigParser) (request : Request)
    (content_type : string) (render : Config → string)
    (section : string) (section_options : PyDict.t string) :
  negotiate request = Some content_type →
  PyDict.get serializer content_type = Some render →
  exposure_enabled c = true →
  section ≠ EmptyString →
  configuration.has_section c section = true →
  PyDict.get (configuration.as_dict c false (negb (non_sensitive_only c))) section
  = Some section_options →
  (run (get_config request (Some section)) c).1
  = inr (ok content_type
            (render {| sections := [section_snapshot section section_options] |})).
Proof.
  intros Hneg Hser Hen Hne Hsec Hget.
  pose proof (in_serializer_Some _ _ Hser) as Hin.
  assert (truthy section = true) as Htruthy by (by destruct section).
  assert (map (λ '(key, value), {| key := key; value := value |}) section_options
          = map (λ kv, {| key := kv.1; value := kv.2 |}) section_options) as Hmap
    by (apply map_ext; by intros [??]).
  apply orb_true_iff in Hen.
  step_handler. rewrite Hneg, Hin, Htruthy.
  destruct (String.eqb _ "non-sensitive-only"); simpl in *.
  - rewrite Hsec; simpl. rewrite Hget; simpl.
    rewrite (serializer_getitem_Some _ _ _ _ Hser).
    unfold _conf_dict_to_config, ok, section_snapshot, PyDict.items; simpl.
    by rewrite Hmap.
  - destruct Hen as [?|Hen]; [done|]. rewrite Hen; simpl.
    rewrite Hsec; simpl. rewrite Hget; simpl.
    rewrite (serializer_getitem_Some _ _ _ _ Hser).
    unfold _conf_dict_to_config, ok, section_snapshot, PyDict.items; simpl.
    by rewrite Hmap.
Qed.

(** X13: the answer for one section is a piece of the answer for the
    whole configuration.  With the same store, request and exposure, the
    body that [get_config] gives for an existing section renders one
    section, the body it gives without a section renders the sections of
    the whole mapping, and that one section is among them, with the same
    options in the same order. *)
Theorem scoped_answer_is_a_piece_of_the_full_answer
    (c : AirflowConfigParser) (request : Request)
    (content_type : string) (render : Config → string)
    (section : string) (section_options : PyDict.t string) :
  negotiate request = Some content_type →
  PyDict.get serializer content_type = Some render →
  exposure_enabled c = true →
  section ≠ EmptyString →
  configuration.has_section c section = true →
  PyDict.get (configuration.as_dict c false (negb (non_sensitive_only c))) section
  = Some section_options →
  let whole :=
    _conf_dict_to_config (configuration.as_dict c false (negb (non_sensitive_only c))) in
  let piece := section_snapshot section section_options in
  (run (get_config request (Some section)) c).1
  = inr (ok content_type (render {| sections := [piece] |}))
  ∧ (run (get_config request None) c).1 = inr (ok content_type (render whole))
  ∧ piece ∈ sections whole.
Proof.
  intros Hneg Hser Hen Hne Hsec Hget whole piece.
  pose proof (in_serializer_Some _ _ Hser) as Hin.
  subst whole piece. split; [|split].
  - by apply scoped_run.
  - apply orb_true_iff in Hen. step_handler. rewrite Hneg, Hin.
    handler_cases Hser; destruct Hen; simplify_eq; done.
  - by apply section_snapshot_in_config.
Qed.

Lemma scoped_answer_is_a_piece_of_the_full_answer_witness :
  let c := store "non-sensitive-only" in
  let whole := _conf_dict_to_config (configuration.as_dict c false false) in
  let piece := section_snapshot "core"
                 [("fernet_key", "< hidden >"); ("executor", "LocalExecutor")] in
  (run (get_config (accepting ["text/plain"]) (Some "core")) c).1
  = inr (ok "text/plain" (_config_to_text {| sections := [piece] |}))
  ∧ (run (get_config (accepting ["text/plain"]) None) c).1
    = inr (ok "text/plain" (_config_to_text whole))
  ∧ piece ∈ sections whole.
Proof.
  apply (scoped_answer_is_a_piece_of_the_full_answer
           (store "non-sensitive-only") (accepting ["text/plain"])
           "text/plain" _config_to_text "core"
           [("fernet_key", "< hidden >"); ("executor", "LocalExecutor")]);
    try reflexivity.
  discriminate.
Defined.

(** X14: every JSON answer can be parsed.  Whenever [get_config] or
    [get_value] answers with the header [Content-Type: application/json],
    the body is the JSON rendering of a snapshot, [json.loads] accepts it,
    and what it gives reads back as that snapshot. *)
Theorem json_answers_parse
    (c : AirflowConfigParser) (request : Request)
    (section_arg : option string) (section option : string) (answer : Response) :
  (run (get_config request section_arg) c).1 = inr answer
  ∨ (run (get_value request section option) c).1 = inr answer →
  PyDict.get (headers answer) "Content-Type" = Some "application/json" →
  ∃ config : Config,
    response answer = _config_to_json config
    ∧ json.loads (response answer) ≫= read_back.config = Some config.
Proof.
  intros Hrun Hheader.
  assert (∃ config, response answer = _config_to_json config) as [config Hbody].
  { destruct (in_serializer (negotiate request)) eqn:Hin.
    - destruct (in_serializer_cases _ Hin) as [Hneg|Hneg];
        (assert (∃ render, PyDict.get serializer
                             (default EmptyString (negotiate request)) = Some render
                           ∧ (negotiate request = Some "application/json"
                              → render = _config_to_json))
           as (render & Hser & Hrender)
           by (rewrite Hneg; eexists; split; [reflexivity|];
               first [discriminate | reflexivity]));
        rewrite Hneg in Hin, Hser; cbn [default] in Hser;
        (destruct Hrun as [Hrun|Hrun]; revert Hrun; step_handler; rewrite Hneg, Hin;
         handler_cases Hser; intros Hrun; simplify_eq; simpl in *;
         first [ discriminate Hheader
               | eexists; rewrite Hrender by done; reflexivity ]).
    - destruct (not_acceptable_run c request section_arg section option Hin)
        as [Hc Hv].
      rewrite Hc, Hv in Hrun. destruct Hrun; simplify_eq/=; discriminate. }
  exists config. split; [done|].
  rewrite Hbody. apply json_round_trip_of_any_snapshot.
Qed.

Lemma json_answers_parse_witness :
  let answer :=
    ok "application/json"
       (_config_to_json
          {| sections := [ {| name := "core";
                              options := [ {| key := "fernet_key";
                                              value := "< hidden >" |} ] |} ] |}) in
  ∃ config : Config,
    response answer = _config_to_json config
    ∧ json.loads (response answer) ≫= read_back.config = Some config.
Proof.
  apply (json_answers_parse
           (store "True") (accepting ["application/json"]) None "core" "fernet_key"
           (ok "application/json"
               (_config_to_json
                  {| sections := [ {| name := "core";
                                      options := [ {| key := "fernet_key";
                                                      value := "< hidden >" |} ] |} ] |}))).
  - right. reflexivity.
  - reflexivity.
Defined.

(** ** The characters of a JSON body *)

Lemma string_forallb_append (p : ascii → bool) (s1 s2 : string) :
  string_forallb p (s1 +:+ s2) = string_forallb p s1 && string_forallb p s2.
Proof.
  induction s1 as [|a s1 IH]; [done|].
  change (p a && string_forallb p (s1 +:+ s2)
          = p a && string_forallb p s1 && string_forallb p s2).
  by rewrite IH, andb_assoc.
Qed.

Lemma escape_ascii_is_ascii (c : ascii) :
  string_forallb is_ascii_output (json.escape_ascii c) = true.
Proof. destruct c as [[] [] [] [] [] [] [] []]; reflexivity. Qed.

Lemma encode_basestring_is_ascii (s : string) :
  string_forallb is_ascii_output (json.encode_basestring_ascii s) = true.
Proof.
  unfold json.encode_basestring_ascii. rewrite !string_forallb_append.
  assert (string_forallb is_ascii_output (json.escape_string s) = true) as ->; [|done].
  induction s as [|c s IH]; [done|].
  change (json.escape_string (String c s))
    with (json.escape_ascii c +:+ json.escape_string s).
  by rewrite string_forallb_append, escape_ascii_is_ascii, IH.
Qed.

Lemma spaces_are_ascii (n : nat) :
  string_forallb is_ascii_output (json.spaces n) = true.
Proof. induction n as [|n IH]; [done | exact IH]. Qed.

Lemma separated_is_ascii {A} (sep : string) (f : A → string) (l : list A) :
  string_forallb is_ascii_output sep = true →
  Forall (λ y, string_forallb is_ascii_output (f y) = true) l →
  string_forallb is_ascii_output
    (foldr (λ part rest, sep +:+ part +:+ rest) EmptyString (map f l)) = true.
Proof.
  intros Hsep. induction 1 as [|y l Hy Hl IH]; [done|].
  cbn [map foldr]. by rewrite !string_forallb_append, Hsep, Hy, IH.
Qed.

Lemma iterencode_is_ascii (v : JSON) (indent level : nat) :
  string_forallb is_ascii_output (json.iterencode indent v level) = true.
Proof.
  revert level.
  induction v as [|b|s|items IH|members IH] using JSON_nested_ind; intros level.
  - reflexivity.
  - by destruct b.
  - apply encode_basestring_is_ascii.
  - destruct IH as [|x xs Hx Hxs]; [reflexivity|].
    rewrite <- (append_nil_r (json.iterencode indent (JArray (x :: xs)) level)).
    rewrite iterencode_array.
    cbn [string_forallb]. rewrite !string_forallb_append.
    rewrite !spaces_are_ascii, (Hx (S level)).
    rewrite separated_is_ascii; [reflexivity| |].
    + change (string_forallb is_ascii_output (json.spaces (indent * S level)) = true).
      apply spaces_are_ascii.
    + eapply Forall_impl; [exact Hxs|]. intros y Hy. apply Hy.
  - destruct IH as [|[k v] members Hv Hmembers]; [reflexivity|].
    rewrite <- (append_nil_r (json.iterencode indent (JObject ((k, v) :: members)) level)).
    rewrite iterencode_object.
    cbn [string_forallb fst snd] in *. rewrite !string_forallb_append.
    rewrite !spaces_are_ascii, encode_basestring_is_ascii, (Hv (S level)).
    rewrite separated_is_ascii; [reflexivity| |].
    + change (string_forallb is_ascii_output (json.spaces (indent * S level)) = true).
      apply spaces_are_ascii.
    + eapply Forall_impl; [exact Hmembers|]. intros kv Hkv. cbn beta.
      by rewrite !string_forallb_append, encode_basestring_is_ascii, (Hkv (S level)).
Qed.

(** X15: the JSON body of a snapshot over code points below 256 is plain
    ASCII.  Whichever of these the names, keys and values hold (control
    characters, quotes, the characters 127-255), every character of
    [_config_to_json] is a printable ASCII character or the newline of the
    indentation; the others are written as escapes.  Nothing is stated of
    strings with a code point above 255. *)
Theorem config_to_json_is_ascii (config : Config) :
  string_forallb is_ascii_output (_config_to_json config) = true.
Proof. apply iterencode_is_ascii. Qed.

(** ** The registry protects single values only *)

Lemma option_in_section_snapshot
    (section option v : string) (section_options : PyDict.t string) :
  PyDict.get section_options option = Some v →
  {| key := option; value := v |} ∈ options (section_snapshot section section_options).
Proof.
  unfold section_snapshot. cbn [options].
  induction section_options as [|[k w] section_options IH]; [discriminate|].
  unfold PyDict.get; fold (@PyDict.get string).
  destruct (String.eqb_spec option k) as [->|Hne]; intros Hget; cbn [map fst snd].
  - injection Hget as ->. apply list_elem_of_here.
  - apply list_elem_of_further. by apply IH.
Qed.

(** X16: with the flag plainly true, the registry of sensitive values
    protects [get_value] only.  For a pair that the registry holds,
    [get_value] shows the marker [< hidden >], while [get_config] for the
    section shows the options as the mapping of
    [as_dict(display_sensitive=True)] has them, the value of that option
    included: [get_config] hides nothing by itself. *)
Theorem registry_protects_single_values_only
    (c : AirflowConfigParser) (request : Request)
    (content_type : string) (render : Config → string)
    (section option v : string) (section_options : PyDict.t string) :
  negotiate request = Some content_type →
  PyDict.get serializer content_type = Some render →
  non_sensitive_only c = false →
  flag_boolean c = true →
  section ≠ EmptyString →
  configuration.has_section c section = true →
  configuration.has_option c section option = true →
  PyDict.get (configuration.as_dict c false true) section = Some section_options →
  PyDict.get section_options option = Some v →
  bool_decide ((lower section, lower option)
                 ∈ configuration.sensitive_config_values c) = true →
  (run (get_value request section option) c).1
  = inr (ok content_type
            (render {| sections :=
                         [ {| name := section;
                              options := [ {| key := option;
                                              value := "< hidden >" |} ] |} ] |}))
  ∧ (run (get_config request (Some section)) c).1
    = inr (ok content_type
              (render {| sections := [section_snapshot section section_options] |}))
  ∧ {| key := option; value := v |}
    ∈ options (section_snapshot section section_options).
Proof.
  intros Hneg Hser Hnso Hbool Hne Hsec Hopt Hget Hv Hreg.
  pose proof (in_serializer_Some _ _ Hser) as Hin.
  split; [|split].
  - step_handler. rewrite Hneg, Hin, Hnso. simpl. rewrite Hbool. simpl.
    rewrite Hopt. simpl. rewrite Hreg. simpl.
    by rewrite (serializer_getitem_Some _ _ _ _ Hser).
  - apply scoped_run; try done.
    + unfold exposure_enabled. by rewrite Hbool, orb_true_r.
    + by rewrite Hnso.
  - by apply option_in_section_snapshot.
Qed.

Lemma registry_protects_single_values_only_witness :
  let core := [("fernet_key", "s3cr3t"); ("executor", "LocalExecutor")] in
  (run (get_value (accepting ["text/plain"]) "core" "fernet_key") (store "True")).1
  = inr (ok "text/plain"
            (_config_to_text
               {| sections :=
                    [ {| name := "core";
                         options := [ {| key := "fernet_key";
                                         value := "< hidden >" |} ] |} ] |}))
  ∧ (run (get_config (accepting ["text/plain"]) (Some "core")) (store "True")).1
    = inr (ok "text/plain"
              (_config_to_text {| sections := [section_snapshot "core" core] |}))
  ∧ {| key := "fernet_key"; value := "s3cr3t" |}
    ∈ options (section_snapshot "core" core).
Proof.
  apply (registry_protects_single_values_only
           (store "True") (accepting ["text/plain"]) "text/plain" _config_to_text
           "core" "fernet_key" "s3cr3t"
           [("fernet_key", "s3cr3t"); ("executor", "LocalExecutor")]);
    try reflexivity.
  discriminate.
Defined.
